(** * Study material pipeline: a shallow embedding of
      [src/backend/pipeline/main.py]

    The request handlers of the FastAPI application are embedded as
    computations in a state-and-exception monad over a [World] that holds
    the four Supabase tables, the Firestore [processing_status]
    collection and the Firebase Storage bucket.  Everything the handlers
    cannot decide themselves (whether an external call raises, what the
    clock shows, which UUID is drawn, what the extraction and
    summarisation capabilities answer) is read from an environment
    [Env], indexed by the number of external events so far.

    The background tasks of [main.py] call the [extractors] module, which
    is not part of the sources; the pipeline they run is modelled from
    the specification and marked as such. *)

From Stdlib Require Import ZArith Ascii String List Lia.
From stdpp Require Import base option list gmap strings sorting.

Local Open Scope Z_scope.

(** ** Python values and strings *)

(** The values stored in a Firestore document (a Python [dict]). *)
Inductive value :=
| VNone
| VStr (s : string)
| VInt (z : Z)
| VTime (t : Z)            (* a [datetime], in seconds *)
| VServerTimestamp.        (* [firestore.SERVER_TIMESTAMP], resolved by the store *)

#[global] Instance value_eq_dec : EqDecision value.
Proof. solve_decision. Defined.

(** A document is a dictionary from field names to values. *)
Abbreviation doc := (gmap string value).

(** Truthiness of an optional string: [None] and [""] are falsy. *)
Definition truthy (o : option string) : bool :=
  match o with
  | Some s => negb (String.eqb s "")
  | None => false
  end.

(** [a or b] on an optional string and a string. *)
Definition or_else (o : option string) (d : string) : string :=
  match o with
  | Some s => if String.eqb s "" then d else s
  | None => d
  end.

(** A Python [str] is a sequence of code points; here it is held as its
    UTF-8 encoding, one [ascii] per byte.  A byte [10xxxxxx] continues
    the code point begun before it. *)
Definition byte_is (c : ascii) (n : nat) : bool := Nat.eqb (nat_of_ascii c) n.

Definition byte_in (c : ascii) (lo hi : nat) : bool :=
  (lo <=? nat_of_ascii c)%nat && (nat_of_ascii c <=? hi)%nat.

Definition is_continuation (c : ascii) : bool := byte_in c 128 191.

(** [len(s)]: the number of code points. *)
Fixpoint str_len (s : string) : nat :=
  match s with
  | String c s' => if is_continuation c then str_len s' else S (str_len s')
  | EmptyString => O
  end.

(** [s[:n]]: the first [n] code points, each with all its bytes. *)
Fixpoint take_str (n : nat) (s : string) : string :=
  match s with
  | String c s' =>
      if is_continuation c then String c (take_str n s')
      else match n with
           | O => EmptyString
           | S n' => String c (take_str n' s')
           end
  | EmptyString => EmptyString
  end.

(** [str.isspace] for a code point of one byte: U+0009 to U+000D, U+001C
    to U+001F and U+0020. *)
Definition is_space (c : ascii) : bool := byte_in c 9 13 || byte_in c 28 32.

(** [str.isspace] for a code point of two bytes: U+0085 and U+00A0. *)
Definition is_space2 (c d : ascii) : bool :=
  byte_is c 194 && (byte_is d 133 || byte_is d 160).

(** [str.isspace] for a code point of three bytes: U+1680, U+2000 to
    U+200A, U+2028, U+2029, U+202F, U+205F and U+3000. *)
Definition is_space3 (c d e : ascii) : bool :=
  (byte_is c 225 && byte_is d 154 && byte_is e 128) ||
  (byte_is c 226 && byte_is d 128 &&
   (byte_in e 128 138 || byte_in e 168 169 || byte_is e 175)) ||
  (byte_is c 226 && byte_is d 129 && byte_is e 159) ||
  (byte_is c 227 && byte_is d 128 && byte_is e 128).

(** The number of bytes of the white-space code point at the head of
    [s], and 0 when [s] does not start with white space. *)
Definition space_width (s : string) : nat :=
  match s with
  | String c s1 =>
      if is_space c then 1%nat
      else match s1 with
           | String d s2 =>
               if is_space2 c d then 2%nat
               else match s2 with
                    | String e _ => if is_space3 c d e then 3%nat else O
                    | EmptyString => O
                    end
           | EmptyString => O
           end
  | EmptyString => O
  end.

(** The same for a string read from its end: the bytes of the last code
    point come in reverse order. *)
Definition space_width_rev (s : string) : nat :=
  match s with
  | String e s1 =>
      if is_space e then 1%nat
      else match s1 with
           | String d s2 =>
               if is_space2 d e then 2%nat
               else match s2 with
                    | String c _ => if is_space3 c d e then 3%nat else O
                    | EmptyString => O
                    end
           | EmptyString => O
           end
  | EmptyString => O
  end.

(** Drop the white space at the head of [s]; [skip] counts the bytes of
    the code point just recognised that are still to drop. *)
Fixpoint drop_spaces (width : string → nat) (skip : nat) (s : string) : string :=
  match s with
  | String c s' =>
      match skip with
      | S k => drop_spaces width k s'
      | O => match width s with
             | S k => drop_spaces width k s'
             | O => s
             end
      end
  | EmptyString => EmptyString
  end.

(** [s.lstrip()] *)
Definition lstrip (s : string) : string := drop_spaces space_width 0 s.

(** [s.strip()]: drop the white space at both ends. *)
Definition strip (s : string) : string :=
  String.rev (drop_spaces space_width_rev 0 (String.rev (lstrip s))).

(** [s.replace(a, b)] for code points [a] and [b] of one byte each. *)
Fixpoint replace_char (a b : ascii) (s : string) : string :=
  match s with
  | String c s' => String (if Ascii.eqb c a then b else c) (replace_char a b s')
  | EmptyString => EmptyString
  end.

(** [s.split(".")[-1]]: the text after the last dot (all of [s] when it
    has none).  [acc] is the segment read since the last dot. *)
Fixpoint last_segment_go (acc : string) (s : string) : string :=
  match s with
  | String c s' =>
      if Ascii.eqb c "."%char then last_segment_go EmptyString s'
      else last_segment_go (acc +:+ String c EmptyString) s'
  | EmptyString => acc
  end.

Definition last_segment (s : string) : string := last_segment_go EmptyString s.

(** ["." in s] *)
Fixpoint has_dot (s : string) : bool :=
  match s with
  | String c s' => Ascii.eqb c "."%char || has_dot s'
  | EmptyString => false
  end.

(** ** UUIDs

    [str(uuid.uuid4())] prints the 128-bit integer as 32 lower-case
    hexadecimal digits in groups of 8-4-4-4-12. *)

Definition hex_digit (n : Z) : ascii :=
  match n with
  | 0 => "0" | 1 => "1" | 2 => "2" | 3 => "3" | 4 => "4" | 5 => "5"
  | 6 => "6" | 7 => "7" | 8 => "8" | 9 => "9" | 10 => "a" | 11 => "b"
  | 12 => "c" | 13 => "d" | 14 => "e" | _ => "f"
  end%char.

(** The [w] lowest hexadecimal digits of [n], most significant first. *)
Fixpoint hex_digits (w : nat) (n : Z) : string :=
  match w with
  | O => EmptyString
  | S w' => hex_digits w' (n / 16) +:+ String (hex_digit (n mod 16)) EmptyString
  end.

Definition uuid_str (n : Z) : string :=
  hex_digits 8 (n / 2 ^ 96) +:+ "-" +:+ hex_digits 4 (n / 2 ^ 80) +:+ "-" +:+
  hex_digits 4 (n / 2 ^ 64) +:+ "-" +:+ hex_digits 4 (n / 2 ^ 48) +:+ "-" +:+
  hex_digits 12 n.

(** ** Configuration *)

Definition SUPPORTED_TYPES : gmap string string :=
  list_to_map
    [ ("application/pdf", "pdf");
      ("application/vnd.openxmlformats-officedocument.wordprocessingml.document", "docx");
      ("application/vnd.openxmlformats-officedocument.presentationml.presentation", "pptx");
      ("image/png", "image");
      ("image/jpeg", "image");
      ("image/webp", "image");
      ("audio/mpeg", "audio");
      ("audio/wav", "audio");
      ("audio/webm", "audio");
      ("video/mp4", "video");
      ("video/webm", "video") ].

(** ** The stores *)

(** Table [users_profile]. *)
Module UsersProfile.
Record row := {
  firebase_uid : string;
  email : option string;
  display_name : option string;
  preferences : list (string * string)
}.
End UsersProfile.

(** Table [files].  [upload_time] is not part of the inserted metadata:
    the column is filled by the database when the row is inserted. *)
Module Files.
Record row := {
  file_id : string;
  firebase_uid : string;
  file_name : string;
  file_type : string;
  storage_path : string;
  upload_time : Z
}.
End Files.

(** Table [documents_metadata]. *)
Module DocumentsMetadata.
Record row := {
  id : string;
  firebase_uid : string
}.
End DocumentsMetadata.

(** Table [summaries].  [id] and [created_at] are filled by the database. *)
Module Summaries.
Record row := {
  id : string;
  document_id : string;
  summary_text : string;
  version : Z;
  created_at : Z
}.
End Summaries.

#[global] Instance profile_row_eq_dec : EqDecision UsersProfile.row.
Proof. solve_decision. Defined.
#[global] Instance files_row_eq_dec : EqDecision Files.row.
Proof. solve_decision. Defined.
#[global] Instance docmeta_row_eq_dec : EqDecision DocumentsMetadata.row.
Proof. solve_decision. Defined.
#[global] Instance summaries_row_eq_dec : EqDecision Summaries.row.
Proof. solve_decision. Defined.

(** The work handed to [BackgroundTasks.add_task]. *)
Inductive task :=
| process_file_background (firebase_uid file_id storage_path file_type : string)
| process_url_background (firebase_uid file_id url : string)
| process_text_background (firebase_uid file_id text title : string).

(** The state outside the process.  Tables are lists in insertion order.
    [status_history] is an observation trace: it records every document
    written to [processing_status], oldest first, and is read by no
    handler.  [background] is the queue of the request's
    [BackgroundTasks] object.  [tick] counts the external events. *)
Record World := {
  users_profile : list UsersProfile.row;
  files : list Files.row;
  documents_metadata : list DocumentsMetadata.row;
  summaries : list Summaries.row;
  processing_status : gmap string doc;
  bucket : gmap string (list Byte.byte * string);
  status_history : list (string * doc);
  background : list task;
  tick : nat
}.

Definition empty_world : World :=
  {| users_profile := []; files := []; documents_metadata := [];
     summaries := []; processing_status := ∅; bucket := ∅;
     status_history := []; background := []; tick := 0 |}.

(** What the handlers cannot decide.  [fault n = Some msg]: the external
    call that is event [n] raises [Exception(msg)] and has no effect. *)
Record Env := {
  fault : nat → option string;
  utc : nat → Z;                       (* the clock at event [n], in seconds *)
  uuid4 : nat → Z;                     (* the UUID drawn at event [n] *)
  extract_text : string → list Byte.byte → string;
  read_url : string → string;
  summarize : string → string;
  int_of_str : string → option Z       (* pydantic's reading of a string as an [int] *)
}.

(** ** Exceptions and the handler monad *)

Inductive exn :=
| HTTPException (status_code : Z) (detail : string)
| Exception (msg : string)
| TypeError (msg : string)
| ValidationError (field : string).

(** [str(e)] *)
Definition str_exn (e : exn) : string :=
  match e with
  | HTTPException c d => d
  | Exception m => m
  | TypeError m => m
  | ValidationError f => f
  end.

Inductive res (A : Type) :=
| Ok (a : A)
| Raise (e : exn).
Arguments Ok {A} a.
Arguments Raise {A} e.

Definition M (A : Type) : Type := World → res A * World.

Definition ret {A} (a : A) : M A := λ w, (Ok a, w).

Definition bind {A B} (m : M A) (k : A → M B) : M B :=
  λ w, match m w with
       | (Ok a, w') => k a w'
       | (Raise e, w') => (Raise e, w')
       end.

Definition raise {A} (e : exn) : M A := λ w, (Raise e, w).

(** [try: body except Exception as e: handler(e)] *)
Definition try_except {A} (body : M A) (handler : exn → M A) : M A :=
  λ w, match body w with
       | (Ok a, w') => (Ok a, w')
       | (Raise e, w') => handler e w'
       end.

Declare Scope handler_scope.
Delimit Scope handler_scope with handler.
Notation "x <- m ;; k" := (bind m (λ x, k))
  (at level 100, m at next level, right associativity) : handler_scope.
Notation "m ;; k" := (bind m (λ _, k))
  (at level 100, right associativity) : handler_scope.
Local Open Scope handler_scope.

Definition advance (w : World) : World :=
  {| users_profile := users_profile w; files := files w;
     documents_metadata := documents_metadata w; summaries := summaries w;
     processing_status := processing_status w; bucket := bucket w;
     status_history := status_history w; background := background w;
     tick := S (tick w) |}.

Definition set_users_profile (x : list UsersProfile.row) (w : World) : World :=
  {| users_profile := x; files := files w;
     documents_metadata := documents_metadata w; summaries := summaries w;
     processing_status := processing_status w; bucket := bucket w;
     status_history := status_history w; background := background w;
     tick := tick w |}.

Definition set_files (x : list Files.row) (w : World) : World :=
  {| users_profile := users_profile w; files := x;
     documents_metadata := documents_metadata w; summaries := summaries w;
     processing_status := processing_status w; bucket := bucket w;
     status_history := status_history w; background := background w;
     tick := tick w |}.

Definition set_documents_metadata (x : list DocumentsMetadata.row) (w : World) : World :=
  {| users_profile := users_profile w; files := files w;
     documents_metadata := x; summaries := summaries w;
     processing_status := processing_status w; bucket := bucket w;
     status_history := status_history w; background := background w;
     tick := tick w |}.

Definition set_summaries (x : list Summaries.row) (w : World) : World :=
  {| users_profile := users_profile w; files := files w;
     documents_metadata := documents_metadata w; summaries := x;
     processing_status := processing_status w; bucket := bucket w;
     status_history := status_history w; background := background w;
     tick := tick w |}.

(** [document(file_id).set(d)]: overwrite the document, and record the
    write in the observation trace. *)
Definition set_status_doc (file_id : string) (d : doc) (w : World) : World :=
  {| users_profile := users_profile w; files := files w;
     documents_metadata := documents_metadata w; summaries := summaries w;
     processing_status := <[file_id := d]> (processing_status w);
     bucket := bucket w;
     status_history := status_history w ++ [(file_id, d)];
     background := background w; tick := tick w |}.

Definition set_processing_status (x : gmap string doc) (w : World) : World :=
  {| users_profile := users_profile w; files := files w;
     documents_metadata := documents_metadata w; summaries := summaries w;
     processing_status := x; bucket := bucket w;
     status_history := status_history w; background := background w;
     tick := tick w |}.

Definition set_bucket (x : gmap string (list Byte.byte * string)) (w : World) : World :=
  {| users_profile := users_profile w; files := files w;
     documents_metadata := documents_metadata w; summaries := summaries w;
     processing_status := processing_status w; bucket := x;
     status_history := status_history w; background := background w;
     tick := tick w |}.

Definition set_background (x : list task) (w : World) : World :=
  {| users_profile := users_profile w; files := files w;
     documents_metadata := documents_metadata w; summaries := summaries w;
     processing_status := processing_status w; bucket := bucket w;
     status_history := status_history w; background := x;
     tick := tick w |}.

(** ** Request and response models *)

Record UploadFile := {
  filename : option string;
  content_type : option string;
  content : list Byte.byte
}.

(** The decoded token: [user["uid"]] and [user.get("email")]. *)
Record User := {
  uid : string;
  user_email : option string
}.

Record URLUploadRequest := { url : string; url_title : option string }.

Record TextUploadRequest := { text : string; text_title : option string }.

Module FileUploadResponse.
Record t := {
  file_id : string;
  file_name : string;
  file_type : string;
  storage_path : string;
  status : string
}.
End FileUploadResponse.

Module ProcessingStatus.
Record t := {
  file_id : string;
  status : string;
  progress : Z;
  message : option string
}.
End ProcessingStatus.

Module SummaryResponse.
Record t := {
  id : string;
  document_id : string;
  summary_text : string;
  version : Z;
  created_at : Z
}.
End SummaryResponse.

(** One entry of the [materials] list. *)
Module Material.
Record t := {
  file_id : string;
  file_name : string;
  file_type : string;
  storage_path : string;
  upload_time : Z;
  has_summary : bool;
  latest_summary : option string
}.
End Material.

(** ** Orderings of the queries *)

(** [order("upload_time", desc=True)] *)
Definition upload_time_desc (a b : Files.row) : Prop :=
  Files.upload_time b ≤ Files.upload_time a.

(** [order("version", desc=True)] *)
Definition version_desc (a b : Summaries.row) : Prop :=
  Summaries.version b ≤ Summaries.version a.

#[global] Instance upload_time_desc_dec : RelDecision upload_time_desc.
Proof. intros a b. unfold upload_time_desc. apply _. Defined.
#[global] Instance version_desc_dec : RelDecision version_desc.
Proof. intros a b. unfold version_desc. apply _. Defined.

#[global] Instance upload_time_desc_total : Total upload_time_desc.
Proof. intros a b. unfold upload_time_desc. lia. Qed.
#[global] Instance upload_time_desc_trans : Transitive upload_time_desc.
Proof. intros a b c. unfold upload_time_desc. lia. Qed.
#[global] Instance version_desc_total : Total version_desc.
Proof. intros a b. unfold version_desc. lia. Qed.
#[global] Instance version_desc_trans : Transitive version_desc.
Proof. intros a b c. unfold version_desc. lia. Qed.

(** ** The handlers *)

Section Handlers.
Variable env : Env.

(** An external call is one event: it raises when the environment says
    so, and otherwise acts on the stores.  [f] is given the event's
    number. *)
Definition external {A} (f : nat → World → A * World) : M A :=
  λ w, match fault env (tick w) with
       | Some msg => (Raise (Exception msg), advance w)
       | None => let '(a, w') := f (tick w) (advance w) in (Ok a, w')
       end.

(** [datetime.utcnow()] *)
Definition utcnow : M Z := λ w, (Ok (utc env (tick w)), w).

(** [str(uuid.uuid4())] *)
Definition new_uuid : M string :=
  λ w, (Ok (uuid_str (uuid4 env (tick w))), advance w).

(** *** Supabase *)

Definition select_users_profile (firebase_uid : string)
  : M (list UsersProfile.row) :=
  external (λ _ w,
    (filter (λ r, UsersProfile.firebase_uid r = firebase_uid) (users_profile w), w)).

Definition insert_users_profile (r : UsersProfile.row) : M unit :=
  external (λ _ w, (tt, set_users_profile (users_profile w ++ [r]) w)).

Definition patch_email (firebase_uid : string) (email : option string)
  (r : UsersProfile.row) : UsersProfile.row :=
  if decide (UsersProfile.firebase_uid r = firebase_uid)
  then {| UsersProfile.firebase_uid := UsersProfile.firebase_uid r;
          UsersProfile.email := email;
          UsersProfile.display_name := UsersProfile.display_name r;
          UsersProfile.preferences := UsersProfile.preferences r |}
  else r.

(** [update({"email": email}).eq("firebase_uid", firebase_uid)] *)
Definition update_users_profile_email (firebase_uid : string)
  (email : option string) : M unit :=
  external (λ _ w,
    (tt, set_users_profile (patch_email firebase_uid email <$> users_profile w) w)).

(** [table("files").insert(metadata)]; the database stamps
    [upload_time]. *)
Definition insert_files (file_id firebase_uid file_name file_type
  storage_path : string) : M unit :=
  external (λ n w,
    (tt, set_files (files w ++
           [ {| Files.file_id := file_id;
                Files.firebase_uid := firebase_uid;
                Files.file_name := file_name;
                Files.file_type := file_type;
                Files.storage_path := storage_path;
                Files.upload_time := utc env n |} ]) w)).

Definition insert_documents_metadata (id firebase_uid : string) : M unit :=
  external (λ _ w,
    (tt, set_documents_metadata (documents_metadata w ++
           [ {| DocumentsMetadata.id := id;
                DocumentsMetadata.firebase_uid := firebase_uid |} ]) w)).

(** [select(...).eq("file_id", file_id)] *)
Definition select_files_by_id (file_id : string) : M (list Files.row) :=
  external (λ _ w, (filter (λ r, Files.file_id r = file_id) (files w), w)).

(** [select(...).eq("firebase_uid", uid).order("upload_time", desc=True)] *)
Definition select_files_by_owner (firebase_uid : string) : M (list Files.row) :=
  external (λ _ w,
    (merge_sort upload_time_desc
       (filter (λ r, Files.firebase_uid r = firebase_uid) (files w)), w)).

(** [select(...).eq("document_id", id).order("version", desc=True).limit(1)] *)
Definition latest_summaries (document_id : string) (t : list Summaries.row)
  : list Summaries.row :=
  take 1 (merge_sort version_desc
            (filter (λ r, Summaries.document_id r = document_id) t)).

Definition select_latest_summary (document_id : string)
  : M (list Summaries.row) :=
  external (λ _ w, (latest_summaries document_id (summaries w), w)).

(** *** Firestore and Firebase Storage *)

Definition firestore_set (file_id : string) (d : doc) : M unit :=
  external (λ _ w, (tt, set_status_doc file_id d w)).

(** [document(file_id).get()]: [None] when the document does not exist. *)
Definition firestore_get (file_id : string) : M (option doc) :=
  external (λ _ w, (processing_status w !! file_id, w)).

(** [await file.read()] *)
Definition file_read (file : UploadFile) : M (list Byte.byte) :=
  external (λ _ w, (content file, w)).

(** [blob.upload_from_string(content, content_type=content_type)] *)
Definition blob_upload (path : string) (data : list Byte.byte)
  (content_type : string) : M unit :=
  external (λ _ w, (tt, set_bucket (<[path := (data, content_type)]> (bucket w)) w)).

(** [background_tasks.add_task(...)] *)
Definition add_task (t : task) : M unit :=
  λ w, (Ok tt, set_background (background w ++ [t]) w).

(** *** User profiles *)

Definition ensure_user_profile (firebase_uid : string) (email : option string)
  : M unit :=
  result <- select_users_profile firebase_uid ;;
  match result with
  | [] =>
      insert_users_profile
        {| UsersProfile.firebase_uid := firebase_uid;
           UsersProfile.email := email;
           UsersProfile.display_name := None;
           UsersProfile.preferences := [] |}
  | first :: _ =>
      if truthy email && negb (truthy (UsersProfile.email first))
      then update_users_profile_email firebase_uid email
      else ret tt
  end.

(** *** Status tracking *)

Definition opt_str (o : option string) : value :=
  match o with
  | Some s => VStr s
  | None => VNone
  end.

Definition seconds_24h : Z := 24 * 3600.

Definition status_doc (firebase_uid file_id status : string) (progress : Z)
  (message : option string) (now : Z) : doc :=
  <["firebase_uid" := VStr firebase_uid]>
  (<["file_id" := VStr file_id]>
  (<["status" := VStr status]>
  (<["progress" := VInt progress]>
  (<["message" := opt_str message]>
  (<["updated_at" := VServerTimestamp]>
  (<["expire_at" := VTime (now + seconds_24h)]> ∅)))))).

Definition update_processing_status (firebase_uid file_id status : string)
  (progress : Z) (message : option string) : M unit :=
  now <- utcnow ;;
  firestore_set file_id (status_doc firebase_uid file_id status progress message now).

(** *** POST /api/upload *)

(** The [{content_type}] of an f-string. *)
Definition fmt_opt (o : option string) : string :=
  match o with
  | Some s => s
  | None => "None"
  end.

(** [file.filename.split(".")[-1] if "." in file.filename else file_type] *)
Definition file_ext_of (name file_type : string) : string :=
  if has_dot name then last_segment name else file_type.

(** [f"users/{firebase_uid}/uploads/{file_id}.{file_ext}"] *)
Definition storage_path_of (firebase_uid file_id file_ext : string) : string :=
  "users/" +:+ firebase_uid +:+ "/uploads/" +:+ file_id +:+ "." +:+ file_ext.

(** [background_tasks] is [false] for the default [None] of the
    parameter and [true] for the object FastAPI passes in. *)
Definition upload_file (file : UploadFile) (background_tasks : bool)
  (user : User) : M FileUploadResponse.t :=
  let firebase_uid := uid user in
  let user_email := user_email user in
  ensure_user_profile firebase_uid user_email ;;
  let content_type := content_type file in
  match content_type ≫= (λ c, SUPPORTED_TYPES !! c) with
  | None =>
      raise (HTTPException 400 ("Unsupported file type: " +:+ fmt_opt content_type))
  | Some file_type =>
      file_id <- new_uuid ;;
      match filename file with
      | None => raise (TypeError "argument of type 'NoneType' is not iterable")
      | Some name =>
          let file_ext := file_ext_of name file_type in
          let storage_path := storage_path_of firebase_uid file_id file_ext in
          update_processing_status firebase_uid file_id "uploading" 10
            (Some "Uploading file...") ;;
          try_except
            (data <- file_read file ;;
             blob_upload storage_path data (fmt_opt content_type) ;;
             insert_files file_id firebase_uid name file_type storage_path ;;
             insert_documents_metadata file_id firebase_uid ;;
             update_processing_status firebase_uid file_id "uploaded" 25
               (Some "File uploaded successfully") ;;
             (if background_tasks
              then add_task (process_file_background firebase_uid file_id
                               storage_path file_type)
              else ret tt) ;;
             ret {| FileUploadResponse.file_id := file_id;
                    FileUploadResponse.file_name := name;
                    FileUploadResponse.file_type := file_type;
                    FileUploadResponse.storage_path := storage_path;
                    FileUploadResponse.status := "processing" |})
            (λ e,
               update_processing_status firebase_uid file_id "error" 0
                 (Some (str_exn e)) ;;
               raise (HTTPException 500 (str_exn e)))
      end
  end.

(** *** POST /api/upload/url *)

Definition upload_url (request : URLUploadRequest) (user : User)
  : M FileUploadResponse.t :=
  let firebase_uid := uid user in
  let user_email := user_email user in
  ensure_user_profile firebase_uid user_email ;;
  file_id <- new_uuid ;;
  let file_name := or_else (url_title request) (take_str 100 (url request)) in
  insert_files file_id firebase_uid file_name "url" (url request) ;;
  insert_documents_metadata file_id firebase_uid ;;
  update_processing_status firebase_uid file_id "extracting" 30
    (Some "Extracting content from URL...") ;;
  add_task (process_url_background firebase_uid file_id (url request)) ;;
  ret {| FileUploadResponse.file_id := file_id;
         FileUploadResponse.file_name := file_name;
         FileUploadResponse.file_type := "url";
         FileUploadResponse.storage_path := url request;
         FileUploadResponse.status := "processing" |}.

(** *** POST /api/upload/text *)

Definition upload_text (request : TextUploadRequest) (user : User)
  : M FileUploadResponse.t :=
  let firebase_uid := uid user in
  let user_email := user_email user in
  ensure_user_profile firebase_uid user_email ;;
  file_id <- new_uuid ;;
  let text_preview :=
    replace_char "010"%char " "%char (strip (take_str 50 (text request))) in
  let title :=
    or_else (text_title request) ("Text Note: " +:+ text_preview +:+ "...") in
  insert_files file_id firebase_uid title "url" ("text://" +:+ file_id) ;;
  insert_documents_metadata file_id firebase_uid ;;
  update_processing_status firebase_uid file_id "summarizing" 50
    (Some "Generating summary...") ;;
  add_task (process_text_background firebase_uid file_id (text request) title) ;;
  ret {| FileUploadResponse.file_id := file_id;
         FileUploadResponse.file_name := title;
         FileUploadResponse.file_type := "url";
         FileUploadResponse.storage_path := "text://" +:+ file_id;
         FileUploadResponse.status := "processing" |}.

(** *** GET /api/status/{file_id} *)

(** [data.get("firebase_uid") != firebase_uid] *)
Definition differs_from (v : option value) (s : string) : bool :=
  match v with
  | Some (VStr s') => negb (String.eqb s' s)
  | _ => true
  end.

(** The validation of an [int] field: an integer is taken as it is, a
    string is read as the validator reads it. *)
Definition as_int (v : value) : option Z :=
  match v with
  | VInt p => Some p
  | VStr n => int_of_str env n
  | _ => None
  end.

(** Construction of the [ProcessingStatus] model: [status] must be a
    string, [progress] an integer or a string that reads as one,
    [message] a string or [None]. *)
Definition make_ProcessingStatus (file_id : string) (status progress : value)
  (message : option value) : M ProcessingStatus.t :=
  match status, as_int progress, message with
  | VStr s, Some p, Some (VStr m) =>
      ret {| ProcessingStatus.file_id := file_id; ProcessingStatus.status := s;
             ProcessingStatus.progress := p; ProcessingStatus.message := Some m |}
  | VStr s, Some p, (Some VNone | None) =>
      ret {| ProcessingStatus.file_id := file_id; ProcessingStatus.status := s;
             ProcessingStatus.progress := p; ProcessingStatus.message := None |}
  | VStr _, Some _, _ => raise (ValidationError "message")
  | VStr _, None, _ => raise (ValidationError "progress")
  | _, _, _ => raise (ValidationError "status")
  end.

Definition get_status (file_id : string) (user : User) : M ProcessingStatus.t :=
  let firebase_uid := uid user in
  status_doc <- firestore_get file_id ;;
  match status_doc with
  | None => raise (HTTPException 404 "Status not found")
  | Some data =>
      if differs_from (data !! "firebase_uid") firebase_uid
      then raise (HTTPException 403 "Access denied")
      else make_ProcessingStatus file_id
             (default (VStr "unknown") (data !! "status"))
             (default (VInt 0) (data !! "progress"))
             (data !! "message")
  end.

(** *** GET /api/materials *)

(** [for x in l: out.append(f(x))] *)
Fixpoint for_each {A B} (f : A → M B) (l : list A) : M (list B) :=
  match l with
  | [] => ret []
  | x :: l' => y <- f x ;; ys <- for_each f l' ;; ret (y :: ys)
  end.

Definition material_of (file : Files.row) (summary_result : list Summaries.row)
  : Material.t :=
  {| Material.file_id := Files.file_id file;
     Material.file_name := Files.file_name file;
     Material.file_type := Files.file_type file;
     Material.storage_path := Files.storage_path file;
     Material.upload_time := Files.upload_time file;
     Material.has_summary := bool_decide (0 < length summary_result)%nat;
     Material.latest_summary := Summaries.summary_text <$> head summary_result |}.

Definition get_materials (user : User) : M (list Material.t) :=
  let firebase_uid := uid user in
  files_result <- select_files_by_owner firebase_uid ;;
  for_each (λ file,
              summary_result <- select_latest_summary (Files.file_id file) ;;
              ret (material_of file summary_result))
           files_result.

(** *** GET /api/summary/{file_id} *)

Definition SummaryResponse_of (summary : Summaries.row) : SummaryResponse.t :=
  {| SummaryResponse.id := Summaries.id summary;
     SummaryResponse.document_id := Summaries.document_id summary;
     SummaryResponse.summary_text := Summaries.summary_text summary;
     SummaryResponse.version := Summaries.version summary;
     SummaryResponse.created_at := Summaries.created_at summary |}.

Definition get_summary (file_id : string) (user : User) : M SummaryResponse.t :=
  let firebase_uid := uid user in
  file_result <- select_files_by_id file_id ;;
  match file_result with
  | [] => raise (HTTPException 404 "File not found")
  | first :: _ =>
      if negb (String.eqb (Files.firebase_uid first) firebase_uid)
      then raise (HTTPException 403 "Access denied")
      else
        summary_result <- select_latest_summary file_id ;;
        match summary_result with
        | [] => raise (HTTPException 404 "Summary not found")
        | summary :: _ =>
            ret (SummaryResponse_of summary)
        end
  end.

(** *** The background pipeline *)

(** Modelled from the spec: the capabilities the pipeline calls are
    those of the [extractors] module, which is not among the sources.
    Fetching the raw bytes from the content store at the recorded
    locator fails when nothing is stored there. *)
Definition storage_download (path : string) : M (list Byte.byte) :=
  blob <- external (λ _ w, (bucket w !! path, w)) ;;
  match blob with
  | Some (data, _) => ret data
  | None => raise (Exception ("No such object: " +:+ path))
  end.

(** Modelled from the spec: the kind-specific extractor, the reader of
    the text of a URL and the summariser are external capabilities; each
    call is one external event, and what it answers is taken from the
    environment. *)
Definition extract (file_type : string) (data : list Byte.byte) : M string :=
  external (λ _ w, (extract_text env file_type data, w)).

Definition fetch_url (url : string) : M string :=
  external (λ _ w, (read_url env url, w)).

Definition summarize_text (text : string) : M string :=
  external (λ _ w, (summarize env text, w)).

(** Modelled from the spec: the insertion of a Summary row, done by the
    [extractors] module; the database fills [id] and [created_at]. *)
Definition insert_summaries (document_id summary_text : string) (version : Z)
  : M unit :=
  external (λ n w,
    (tt, set_summaries (summaries w ++
           [ {| Summaries.id := uuid_str (uuid4 env n);
                Summaries.document_id := document_id;
                Summaries.summary_text := summary_text;
                Summaries.version := version;
                Summaries.created_at := utc env n |} ]) w)).

(** Modelled from the spec: the [extractors] module, whose
    [process_file], [process_url] and [process_text] the background
    tasks call, is not among the sources.  The end of the pipeline,
    once the status is [summarizing]: summarise, append a Summary row
    with version 1 + (the current maximum version of the submission, or
    0), and advance the status to [complete(100)]. *)
Definition summarize_and_persist (firebase_uid file_id text : string) : M unit :=
  summary_text <- summarize_text text ;;
  current <- select_latest_summary file_id ;;
  let version := 1 + default 0 (Summaries.version <$> head current) in
  insert_summaries file_id summary_text version ;;
  update_processing_status firebase_uid file_id "complete" 100 None.

(** Modelled from the spec: [extractors.process_file] is not among the
    sources.  Step 1 of the pipeline for the binary-file kind: fetch
    the bytes at the recorded locator, advance the status to
    [extracting(40)], run the extractor of the file's category, advance
    to [summarizing(70)] and summarise.  Any failure
    is recorded as [error(0)] with the failure description as message,
    and the task stops. *)
Definition process_file (firebase_uid file_id storage_path file_type : string)
  : M unit :=
  try_except
    (data <- storage_download storage_path ;;
     update_processing_status firebase_uid file_id "extracting" 40 None ;;
     text <- extract file_type data ;;
     update_processing_status firebase_uid file_id "summarizing" 70 None ;;
     summarize_and_persist firebase_uid file_id text)
    (λ e, update_processing_status firebase_uid file_id "error" 0
            (Some (str_exn e))).

(** Modelled from the spec: [extractors.process_url] is not among the
    sources.  Step 2 of the pipeline: the status is already
    [extracting(30)]; read the text of the URL, advance to
    [summarizing(70)] and summarise; failures as for files. *)
Definition process_url (firebase_uid file_id url : string) : M unit :=
  try_except
    (text <- fetch_url url ;;
     update_processing_status firebase_uid file_id "summarizing" 70 None ;;
     summarize_and_persist firebase_uid file_id text)
    (λ e, update_processing_status firebase_uid file_id "error" 0
            (Some (str_exn e))).

(** Modelled from the spec: [extractors.process_text] is not among the
    sources.  Step 3 of the pipeline: the text is used as it is and the
    status is already [summarizing(50)], so the task summarises at
    once; failures as for files. *)
Definition process_text (firebase_uid file_id text title : string) : M unit :=
  try_except
    (summarize_and_persist firebase_uid file_id text)
    (λ e, update_processing_status firebase_uid file_id "error" 0
            (Some (str_exn e))).

Definition run_task (t : task) : M unit :=
  match t with
  | process_file_background firebase_uid file_id storage_path file_type =>
      process_file firebase_uid file_id storage_path file_type
  | process_url_background firebase_uid file_id url =>
      process_url firebase_uid file_id url
  | process_text_background firebase_uid file_id text title =>
      process_text firebase_uid file_id text title
  end.

(** The queued tasks run one after the other once the response is out. *)
Fixpoint run_tasks (ts : list task) : M unit :=
  match ts with
  | [] => ret tt
  | t :: ts' => run_task t ;; run_tasks ts'
  end.

Definition run_background : M unit :=
  λ w, run_tasks (background w) (set_background [] w).

(** *** A submission from request to the end of its background task *)

Inductive submission :=
| SubmitFile (file : UploadFile) (background_tasks : bool)
| SubmitUrl (request : URLUploadRequest)
| SubmitText (request : TextUploadRequest).

Definition intake (s : submission) (user : User) : M FileUploadResponse.t :=
  match s with
  | SubmitFile file background_tasks => upload_file file background_tasks user
  | SubmitUrl request => upload_url request user
  | SubmitText request => upload_text request user
  end.

(** The request gets a fresh [BackgroundTasks] queue; its tasks run only
    when the handler returned a response. *)
Definition submit (s : submission) (user : User)
  : World → res FileUploadResponse.t * World :=
  λ w, match intake s user (set_background [] w) with
       | (Ok r, w1) => (Ok r, snd (run_background w1))
       | (Raise e, w1) => (Raise e, w1)
       end.

End Handlers.

(** * Specification vocabulary *)

(** No external call raises. *)
Definition no_faults (env : Env) : Prop := ∀ n, fault env n = None.

(** ** Status sequences *)

Inductive kind := BinaryFile | UrlKind | TextKind.

Definition kind_of (s : submission) : kind :=
  match s with
  | SubmitFile _ _ => BinaryFile
  | SubmitUrl _ => UrlKind
  | SubmitText _ => TextKind
  end.

(** The ordered status labels of a kind, with their progress. *)
Definition sequence_of (k : kind) : list (string * Z) :=
  match k with
  | BinaryFile =>
      [("uploading", 10); ("uploaded", 25); ("extracting", 40);
       ("summarizing", 70); ("complete", 100)]
  | UrlKind => [("extracting", 30); ("summarizing", 70); ("complete", 100)]
  | TextKind => [("summarizing", 50); ("complete", 100)]
  end.

(** What a status document shows: label, progress and message. *)
Definition observe (d : doc) : option (string * Z * option string) :=
  match d !! "status", d !! "progress", d !! "message" with
  | Some (VStr s), Some (VInt p), Some (VStr m) => Some (s, p, Some m)
  | Some (VStr s), Some (VInt p), Some VNone => Some (s, p, None)
  | _, _, _ => None
  end.

(** [follows expected tr]: the writes [tr] walk along [expected] from its
    start, in order and without a gap; an [error(0)] write carries a
    message and nothing comes after it. *)
Fixpoint follows (expected : list (string * Z))
  (tr : list (option (string * Z * option string))) : bool :=
  match tr with
  | [] => true
  | None :: _ => false
  | Some (label, progress, message) :: tr' =>
      if String.eqb label "error"
      then Z.eqb progress 0 && bool_decide (is_Some message) &&
           bool_decide (tr' = [])
      else match expected with
           | (l, p) :: expected' =>
               String.eqb label l && Z.eqb progress p && follows expected' tr'
           | [] => false
           end
  end.

(** Label and progress of each write. *)
Definition stage_of (o : option (string * Z * option string))
  : option (string * Z) :=
  match o with
  | Some (label, progress, _) => Some (label, progress)
  | None => None
  end.

Definition stages (tr : list (option (string * Z * option string)))
  : list (option (string * Z)) :=
  map stage_of tr.

(** ** Tables *)

(** Every identifier of [files] is in [documents_metadata] with the same
    owner, and the other way round. *)
Definition tables_agree (w : World) : Prop :=
  ∀ id owner,
    (∃ f, f ∈ files w ∧ Files.file_id f = id ∧ Files.firebase_uid f = owner) ↔
    {| DocumentsMetadata.id := id; DocumentsMetadata.firebase_uid := owner |}
      ∈ documents_metadata w.

(** At most one profile per identity. *)
Definition one_profile_each (t : list UsersProfile.row) : Prop :=
  ∀ firebase_uid,
    (length (filter (λ r, UsersProfile.firebase_uid r = firebase_uid) t) ≤ 1)%nat.

(** Two worlds hold the same data in every store; only the event
    counter may differ. *)
Definition same_stores (w1 w2 : World) : Prop :=
  users_profile w1 = users_profile w2 ∧ files w1 = files w2 ∧
  documents_metadata w1 = documents_metadata w2 ∧
  summaries w1 = summaries w2 ∧
  processing_status w1 = processing_status w2 ∧ bucket w1 = bucket w2.

(** The entry [get_materials] builds for a row of [files], given the
    table of summaries. *)
Definition joined (t : list Summaries.row) (file : Files.row) : Material.t :=
  material_of file (latest_summaries (Files.file_id file) t).

(** [s] is a row of [t] for the submission [id] with the greatest version. *)
Definition max_version_row (t : list Summaries.row) (id : string)
  (s : Summaries.row) : Prop :=
  s ∈ t ∧ Summaries.document_id s = id ∧
  ∀ s', s' ∈ t → Summaries.document_id s' = id →
        Summaries.version s' ≤ Summaries.version s.

(** What a material entry says about the row [r] of [files]: the copied
    columns, whether a summary exists, and the text of a summary of
    greatest version. *)
Definition entry_of (t : list Summaries.row) (m : Material.t) (r : Files.row)
  : Prop :=
  Material.file_id m = Files.file_id r ∧
  Material.file_name m = Files.file_name r ∧
  Material.file_type m = Files.file_type r ∧
  Material.storage_path m = Files.storage_path r ∧
  Material.upload_time m = Files.upload_time r ∧
  (Material.has_summary m = true ↔
   ∃ s, s ∈ t ∧ Summaries.document_id s = Files.file_id r) ∧
  match Material.latest_summary m with
  | Some txt =>
      ∃ s, max_version_row t (Files.file_id r) s ∧ Summaries.summary_text s = txt
  | None => ∀ s, s ∈ t → Summaries.document_id s ≠ Files.file_id r
  end.

(** The response [r] is the row [s], field by field. *)
Definition same_summary (r : SummaryResponse.t) (s : Summaries.row) : Prop :=
  SummaryResponse.id r = Summaries.id s ∧
  SummaryResponse.document_id r = Summaries.document_id s ∧
  SummaryResponse.summary_text r = Summaries.summary_text s ∧
  SummaryResponse.version r = Summaries.version s ∧
  SummaryResponse.created_at r = Summaries.created_at s.

(** The entry [m] stands for the row [r] of [files], and its
    [latest_summary] is the text of a row of [t] of greatest version for
    that submission, or [None] when [t] has no row for it. *)
Definition latest_joined (t : list Summaries.row) (m : Material.t)
  (r : Files.row) : Prop :=
  Material.file_id m = Files.file_id r ∧
  match Material.latest_summary m with
  | Some txt =>
      ∃ s, max_version_row t (Files.file_id r) s ∧ Summaries.summary_text s = txt
  | None => ∀ s, s ∈ t → Summaries.document_id s ≠ Files.file_id r
  end.

(** The bytes of a string. *)
Abbreviation chars := String.list_ascii_of_string.

(** ** Sample data *)

(** The value of a string of decimal digits, [acc] being the value of
    the digits read so far. *)
Fixpoint digits_value (acc : Z) (s : string) : option Z :=
  match s with
  | String c s' =>
      match Ascii.is_nat c with
      | Some d => digits_value (10 * acc + Z.of_nat d) s'
      | None => None
      end
  | EmptyString => Some acc
  end.

(** An environment in which nothing fails; the clock advances by an hour
    per event; a non-empty string of digits reads as an integer. *)
Definition quiet : Env :=
  {| fault := λ _, None;
     utc := λ n, Z.of_nat n * 3600;
     uuid4 := λ n, Z.of_nat n;
     extract_text := λ _ _, "extracted text";
     read_url := λ _, "page text";
     summarize := λ t, "summary of " +:+ t;
     int_of_str := λ s, if String.eqb s "" then None else digits_value 0 s |}.

(** As [quiet], but the external call that is event [n] fails. *)
Definition failing_at (n : nat) (msg : string) : Env :=
  {| fault := λ k, if decide (k = n) then Some msg else None;
     utc := utc quiet; uuid4 := uuid4 quiet;
     extract_text := extract_text quiet; read_url := read_url quiet;
     summarize := summarize quiet; int_of_str := int_of_str quiet |}.


Definition alice : User := {| uid := "alice"; user_email := Some "alice@example.org" |}.
Definition bob : User := {| uid := "bob"; user_email := None |}.

Definition notes_pdf : UploadFile :=
  {| filename := Some "notes.pdf"; content_type := Some "application/pdf";
     content := [] |}.

Definition notes_txt : UploadFile :=
  {| filename := Some "notes.txt"; content_type := Some "text/plain";
     content := [] |}.

(** U+00A0, the no-break space, and U+00E9, the letter e with an acute
    accent, both of two bytes. *)
Definition nbsp : string :=
  String (ascii_of_nat 194) (String (ascii_of_nat 160) "").

Definition e_acute : string :=
  String (ascii_of_nat 195) (String (ascii_of_nat 169) "").

(** A note that opens with a no-break space and has accents. *)
Definition cafe_note : TextUploadRequest :=
  {| text := nbsp +:+ " caf" +:+ e_acute +:+ " " +:+ nbsp;
     text_title := Some "" |}.

Definition cell_note : TextUploadRequest :=
  {| text := "The mitochondria is the powerhouse of the cell";
     text_title := None |}.

(** A submission of alice with two summaries, version 2 written before
    version 1. *)
Definition out_of_order : World :=
  {| users_profile := [];
     files := [ {| Files.file_id := "f1"; Files.firebase_uid := "alice";
                   Files.file_name := "notes.pdf"; Files.file_type := "pdf";
                   Files.storage_path := "users/alice/uploads/f1.pdf";
                   Files.upload_time := 10 |} ];
     documents_metadata :=
       [ {| DocumentsMetadata.id := "f1";
            DocumentsMetadata.firebase_uid := "alice" |} ];
     summaries :=
       [ {| Summaries.id := "s2"; Summaries.document_id := "f1";
            Summaries.summary_text := "second"; Summaries.version := 2;
            Summaries.created_at := 30 |};
         {| Summaries.id := "s1"; Summaries.document_id := "f1";
            Summaries.summary_text := "first"; Summaries.version := 1;
            Summaries.created_at := 40 |} ];
     processing_status := ∅; bucket := ∅; status_history := [];
     background := []; tick := 0 |}.

(** ** User profiles *)

(** Nothing but [users_profile] and the event counter differs. *)
Definition profile_frame (w w' : World) : Prop :=
  files w' = files w ∧ documents_metadata w' = documents_metadata w ∧
  summaries w' = summaries w ∧ processing_status w' = processing_status w ∧
  bucket w' = bucket w ∧ status_history w' = status_history w ∧
  background w' = background w.

(** The profile created on first contact. *)
Definition new_profile (firebase_uid : string) (email : option string)
  : UsersProfile.row :=
  {| UsersProfile.firebase_uid := firebase_uid;
     UsersProfile.email := email;
     UsersProfile.display_name := None;
     UsersProfile.preferences := [] |}.

(** The table [users_profile] after [ensure_user_profile] went through. *)
Definition upserted (firebase_uid : string) (email : option string)
  (t : list UsersProfile.row) : list UsersProfile.row :=
  match filter (λ r, UsersProfile.firebase_uid r = firebase_uid) t with
  | [] => t ++ [new_profile firebase_uid email]
  | first :: _ =>
      if truthy email && negb (truthy (UsersProfile.email first))
      then patch_email firebase_uid email <$> t
      else t
  end.

(** A profile whose stored email is the empty string. *)
Definition blank_email : World :=
  set_users_profile
    [ {| UsersProfile.firebase_uid := "alice"; UsersProfile.email := Some "";
         UsersProfile.display_name := Some "Alice";
         UsersProfile.preferences := [] |} ] empty_world.

(** ** Status documents *)

(** [n] events pass elsewhere: the stores are untouched and the clock
    moves on. *)
Definition wait (n : nat) (w : World) : World := Nat.iter n advance w.

(** Two status writes for one submission, an hour apart. *)
Definition written_twice : World :=
  (update_processing_status quiet "alice" "f1" "complete" 100 None
     (update_processing_status quiet "alice" "f1" "summarizing" 50 None
        empty_world).2).2.

(** A status document that has neither [status] nor [progress]. *)
Definition bare_doc : doc := {[ "firebase_uid" := VStr "alice" ]}.

Definition bare_status : World :=
  set_processing_status {[ "f1" := bare_doc ]} empty_world.

(** ** Observed status writes *)

(** The identifier and the [expire_at] stamp of every document written,
    in the order of the writes. *)
Definition expiries (tr : list (string * doc)) : list (string * option value) :=
  map (λ e, (e.1, e.2 !! "expire_at")) tr.

(** What the writes [tr] show, in order. *)
Definition shown (tr : list (string * doc))
  : list (option (string * Z * option string)) :=
  map (λ e, observe e.2) tr.

(** A write for the submission [id] whose error message, if it is an
    error, is what a failing external call reported. *)
Definition reported (env : Env) (id : string) (e : string * doc) : Prop :=
  e.1 = id ∧
  ∀ m, observe e.2 = Some ("error", 0, Some m) → ∃ n, fault env n = Some m.



(** * The authentication dependency and the routes *)

(** [s.replace(p, "")]: every occurrence of [p], found from left to right
    without overlap, is dropped.  [skip] counts the characters of the
    occurrence just found that are still to drop. *)
Fixpoint remove_go (p : string) (skip : nat) (s : string) : string :=
  match s with
  | EmptyString => EmptyString
  | String c s' =>
      match skip with
      | S k => remove_go p k s'
      | O => if String.prefix p s
             then remove_go p (String.length p - 1) s'
             else String c (remove_go p 0 s')
      end
  end.

Definition remove_all (p s : string) : string :=
  if String.eqb p "" then s else remove_go p 0 s.

Section Auth.
(** [auth.verify_id_token]: the decoded token, or the message of the
    exception it raises. *)
Variable verify_id_token : string → User + string.

(** The dependency [get_firebase_user]; it touches no store. *)
Definition get_firebase_user (authorization : option string) : M User :=
  if negb (truthy authorization) ||
     negb (String.prefix "Bearer " (default "" authorization))
  then raise (HTTPException 401 "Missing or invalid authorization header")
  else
    let token := remove_all "Bearer " (default "" authorization) in
    match verify_id_token token with
    | inl decoded_token => ret decoded_token
    | inr msg => raise (HTTPException 401 ("Invalid token: " +:+ msg))
    end.

(** A route with [user: dict = Depends(get_firebase_user)]: the handler
    runs on the user the dependency returns. *)
Definition route {A} (authorization : option string) (handler : User → M A)
  : M A :=
  λ w, match get_firebase_user authorization w with
       | (Ok user, w') => handler user w'
       | (Raise e, w') => (Raise e, w')
       end.

Variable env : Env.

Definition api_upload (authorization : option string) (file : UploadFile)
  (background_tasks : bool) : M FileUploadResponse.t :=
  route authorization (upload_file env file background_tasks).

Definition api_upload_url (authorization : option string)
  (request : URLUploadRequest) : M FileUploadResponse.t :=
  route authorization (upload_url env request).

Definition api_upload_text (authorization : option string)
  (request : TextUploadRequest) : M FileUploadResponse.t :=
  route authorization (upload_text env request).

Definition api_status (authorization : option string) (file_id : string)
  : M ProcessingStatus.t :=
  route authorization (get_status env file_id).

Definition api_materials (authorization : option string) : M (list Material.t) :=
  route authorization (get_materials env).

Definition api_summary (authorization : option string) (file_id : string)
  : M SummaryResponse.t :=
  route authorization (get_summary env file_id).
End Auth.

(** A verifier that accepts the tokens ["alice-token"] and ["bob-token"]. *)
Definition sample_verifier (token : string) : User + string :=
  if String.eqb token "alice-token" then inl alice
  else if String.eqb token "bob-token" then inl bob
  else inr "Token expired".

(** ** Vocabulary of the further properties *)

(** The title [upload_text] derives from the text. *)
Definition derived_title (text : string) : string :=
  "Text Note: " +:+
  replace_char "010"%char " "%char (strip (take_str 50 text)) +:+ "...".

(** The first status a client can read once the intake has answered. *)
Definition first_status (s : submission) : string * Z * string :=
  match s with
  | SubmitFile _ _ => ("uploaded", 25, "File uploaded successfully")
  | SubmitUrl _ => ("extracting", 30, "Extracting content from URL...")
  | SubmitText _ => ("summarizing", 50, "Generating summary...")
  end.

(** The categories an uploaded file can have. *)
Definition categories : list string :=
  ["pdf"; "docx"; "pptx"; "image"; "audio"; "video"].

(** A URL submitted without a title. *)
Definition cells_page : URLUploadRequest :=
  {| url := "https://example.org/cells"; url_title := None |}.

(** A file whose name and content type disagree. *)
Definition setup_exe : UploadFile :=
  {| filename := Some "setup.exe"; content_type := Some "application/pdf";
     content := [] |}.

(** * Properties *)

(** ** Running a computation *)

Lemma bind_eq {A B} (m : M A) (k : A → M B) w :
  bind m k w = match m w with
               | (Ok a, w') => k a w'
               | (Raise e, w') => (Raise e, w')
               end.
Proof. reflexivity. Qed.

Lemma try_except_eq {A} (body : M A) (handler : exn → M A) w :
  try_except body handler w = match body w with
                              | (Ok a, w') => (Ok a, w')
                              | (Raise e, w') => handler e w'
                              end.
Proof. reflexivity. Qed.

Lemma external_ok env {A} (f : nat → World → A * World) w :
  fault env (tick w) = None →
  external env f w = (Ok (f (tick w) (advance w)).1, (f (tick w) (advance w)).2).
Proof. intros H. unfold external. rewrite H. by destruct (f _ _). Qed.

Lemma external_fail env {A} (f : nat → World → A * World) w msg :
  fault env (tick w) = Some msg →
  external env f w = (Raise (Exception msg), advance w).
Proof. intros H. unfold external. by rewrite H. Qed.

Lemma no_faults_quiet : no_faults quiet.
Proof. intros n. reflexivity. Qed.

(** ** The latest summary of a submission *)

Lemma latest_summaries_nil id t :
  latest_summaries id t = [] ↔ ∀ s, s ∈ t → Summaries.document_id s ≠ id.
Proof.
  unfold latest_summaries.
  pose proof (merge_sort_Permutation version_desc
                (filter (λ r, Summaries.document_id r = id) t)) as Hp.
  destruct (merge_sort version_desc _) as [|x l] eqn:Hs; simpl; split.
  - intros _ s Hin Hid. apply Permutation_nil_l in Hp.
    assert (s ∈ filter (λ r, Summaries.document_id r = id) t) as Hf
      by (apply list_elem_of_filter; auto).
    rewrite <- Hp in Hf. by apply elem_of_nil in Hf.
  - done.
  - discriminate.
  - intros Hno. exfalso.
    assert (x ∈ filter (λ r, Summaries.document_id r = id) t) as Hf
      by (rewrite <- Hp; apply elem_of_cons; auto).
    apply list_elem_of_filter in Hf as [Hid Hin]. by apply (Hno x).
Qed.

Lemma latest_summaries_cons id t s l :
  latest_summaries id t = s :: l → l = [] ∧ max_version_row t id s.
Proof.
  unfold latest_summaries, max_version_row.
  pose proof (merge_sort_Permutation version_desc
                (filter (λ r, Summaries.document_id r = id) t)) as Hp.
  pose proof (StronglySorted_merge_sort version_desc
                (filter (λ r, Summaries.document_id r = id) t)) as Hs.
  destruct (merge_sort version_desc _) as [|x l'] eqn:Hm; simpl; [done|].
  rewrite take_0. intros [= <- <-].
  assert (∀ y, y ∈ x :: l' ↔ Summaries.document_id y = id ∧ y ∈ t) as Hel.
  { intros y. by rewrite Hp, list_elem_of_filter. }
  split; [done|]. destruct (Hel x) as [[Hid Hin] _]; [by left|].
  split; [done|]. split; [done|].
  intros s' Hin' Hid'. destruct (Hel s') as [_ Hs'].
  specialize (Hs' (conj Hid' Hin')).
  apply StronglySorted_inv in Hs as [_ Hall].
  apply elem_of_cons in Hs' as [->|Hs']; [lia|].
  rewrite Forall_forall in Hall. by apply Hall.
Qed.

(** ** GET /api/summary *)

Section GetSummary.
Variable env : Env.
Variables (file_id : string) (user : User) (w : World).
Hypothesis files_query_ok : fault env (tick w) = None.


Lemma get_summary_not_owner sub rest :
  filter (λ r, Files.file_id r = file_id) (files w) = sub :: rest →
  Files.firebase_uid sub ≠ uid user →
  get_summary env file_id user w =
  (Raise (HTTPException 403 "Access denied"), advance w).
Proof.
  intros Hsub Hne. unfold get_summary, select_files_by_id.
  rewrite bind_eq, (external_ok env _ w files_query_ok). simpl.
  rewrite Hsub. apply String.eqb_neq in Hne. by rewrite Hne.
Qed.

Lemma get_summary_owner sub rest :
  filter (λ r, Files.file_id r = file_id) (files w) = sub :: rest →
  Files.firebase_uid sub = uid user →
  fault env (S (tick w)) = None →
  (get_summary env file_id user w).1 =
  match latest_summaries file_id (summaries w) with
  | [] => Raise (HTTPException 404 "Summary not found")
  | summary :: _ => Ok (SummaryResponse_of summary)
  end.
Proof.
  intros Hsub Heq Hf'. unfold get_summary, select_files_by_id.
  rewrite bind_eq, (external_ok env _ w files_query_ok). simpl.
  rewrite Hsub. apply String.eqb_eq in Heq. rewrite Heq. simpl.
  unfold select_latest_summary.
  rewrite bind_eq, (external_ok env _ (advance w) Hf'). simpl.
  by destruct (latest_summaries file_id (summaries w)).
Qed.

End GetSummary.


(** ** GET /api/materials *)

Lemma for_each_join env (l : list Files.row) w :
  no_faults env →
  ∃ w', for_each
          (λ file, bind (select_latest_summary env (Files.file_id file))
                     (λ summary_result, ret (material_of file summary_result)))
          l w = (Ok (joined (summaries w) <$> l), w').
Proof.
  intros Hnf. revert w. induction l as [|x l IH]; intros w; simpl.
  - by exists w.
  - destruct (IH (advance w)) as [w' Hw'].
    unfold select_latest_summary in *. rewrite !bind_eq.
    rewrite (external_ok env _ w (Hnf _)). simpl.
    rewrite bind_eq, Hw'. by exists w'.
Qed.

Lemma get_materials_eq env user w :
  no_faults env →
  (get_materials env user w).1 =
  Ok (joined (summaries w) <$>
        merge_sort upload_time_desc
          (filter (λ r, Files.firebase_uid r = uid user) (files w))).
Proof.
  intros Hnf. unfold get_materials. rewrite bind_eq.
  unfold select_files_by_owner.
  rewrite (external_ok env _ w (Hnf _)). simpl.
  destruct (for_each_join env
              (merge_sort upload_time_desc
                 (filter (λ r, Files.firebase_uid r = uid user) (files w)))
              (advance w) Hnf) as [w' Hw'].
  by rewrite Hw'.
Qed.

Lemma joined_has_summary t file :
  Material.has_summary (joined t file) = true ↔
  ∃ s, s ∈ t ∧ Summaries.document_id s = Files.file_id file.
Proof.
  unfold joined, material_of. simpl.
  destruct (latest_summaries _ t) as [|s l] eqn:Hl; simpl.
  - split; [done|]. intros (s & Hin & Hid).
    by destruct (proj1 (latest_summaries_nil _ _) Hl s Hin).
  - apply latest_summaries_cons in Hl as (-> & Hin & Hid & _).
    split; [|done]. intros _. by exists s.
Qed.

Lemma joined_latest_summary t file :
  match Material.latest_summary (joined t file) with
  | Some txt =>
      ∃ s, max_version_row t (Files.file_id file) s ∧
           Summaries.summary_text s = txt
  | None => ∀ s, s ∈ t → Summaries.document_id s ≠ Files.file_id file
  end.
Proof.
  unfold joined, material_of. simpl.
  destruct (latest_summaries _ t) as [|s l] eqn:Hl; simpl.
  - by apply latest_summaries_nil.
  - apply latest_summaries_cons in Hl as [-> Hmax]. by exists s.
Qed.

(** C7.  When the store answers, [get_materials] returns one entry per
    row of [files] owned by the caller and no other: the entries are
    built from a permutation [rows] of exactly the caller's rows, sorted
    by [upload_time] descending; each entry copies its row, its
    [has_summary] flag is true exactly when [summaries] has a row for the
    submission, and [latest_summary] is the text of a row of greatest
    version when there is one and [None] otherwise. *)
Theorem get_materials_lists_own_submissions env user w :
  no_faults env →
  ∃ ms rows,
    (get_materials env user w).1 = Ok ms ∧
    rows ≡ₚ filter (λ r, Files.firebase_uid r = uid user) (files w) ∧
    StronglySorted upload_time_desc rows ∧
    Forall2 (entry_of (summaries w)) ms rows.
Proof.
  intros Hnf.
  set (rows := merge_sort upload_time_desc
                 (filter (λ r, Files.firebase_uid r = uid user) (files w))).
  exists (joined (summaries w) <$> rows), rows.
  split; [by apply get_materials_eq|].
  split; [apply merge_sort_Permutation|].
  split; [apply (StronglySorted_merge_sort _)|].
  apply Forall2_fmap_l, Forall_Forall2_diag, Forall_forall.
  intros r _. unfold entry_of. repeat (split; [reflexivity|]).
  split; [apply joined_has_summary|apply joined_latest_summary].
Qed.

Lemma get_materials_lists_own_submissions_witness :
  ∃ ms rows,
    (get_materials quiet alice out_of_order).1 = Ok ms ∧
    rows ≡ₚ filter (λ r, Files.firebase_uid r = uid alice) (files out_of_order) ∧
    StronglySorted upload_time_desc rows ∧
    Forall2 (entry_of (summaries out_of_order)) ms rows.
Proof.
  apply (get_materials_lists_own_submissions quiet alice out_of_order).
  intros n. reflexivity.
Defined.

(** C5.  When the store answers: to the owner of a submission that has
    summaries [get_summary] returns a response that is, field by field,
    a row of [summaries] for that submission whose version no other row
    of the submission exceeds; and [get_materials] returns one entry for
    every row of [files] the caller owns, whose [latest_summary] is the
    text of such a row of greatest version of that submission when it
    has summaries, and [None] only when it has none.  The table is any
    list of rows, so where the row stands in it plays no part. *)
Theorem latest_is_max_version env user w :
  no_faults env →
  (∀ file_id sub rest s0,
     filter (λ r, Files.file_id r = file_id) (files w) = sub :: rest →
     Files.firebase_uid sub = uid user →
     s0 ∈ summaries w → Summaries.document_id s0 = file_id →
     ∃ r s, (get_summary env file_id user w).1 = Ok r ∧
            max_version_row (summaries w) file_id s ∧
            same_summary r s ∧
            SummaryResponse.document_id r = file_id ∧
            ∀ s', s' ∈ summaries w → Summaries.document_id s' = file_id →
                  Summaries.version s' ≤ SummaryResponse.version r) ∧
  (∃ ms rows,
     (get_materials env user w).1 = Ok ms ∧
     rows ≡ₚ filter (λ r, Files.firebase_uid r = uid user) (files w) ∧
     Forall2 (latest_joined (summaries w)) ms rows ∧
     ∀ m, m ∈ ms →
       match Material.latest_summary m with
       | Some txt =>
           ∃ s, max_version_row (summaries w) (Material.file_id m) s ∧
                Summaries.summary_text s = txt
       | None =>
           ∀ s, s ∈ summaries w → Summaries.document_id s ≠ Material.file_id m
       end).
Proof.
  intros Hnf. split.
  - intros file_id sub rest s0 Hsub Hown Hin Hid.
    rewrite (get_summary_owner env file_id user w (Hnf _) sub rest Hsub Hown
               (Hnf _)).
    destruct (latest_summaries file_id (summaries w)) as [|s l] eqn:Hl.
    + by destruct (proj1 (latest_summaries_nil _ _) Hl s0 Hin).
    + apply latest_summaries_cons in Hl as [-> Hmax].
      exists (SummaryResponse_of s), s. split; [done|]. split; [done|].
      split; [by repeat split|]. split; [apply Hmax|apply Hmax].
  - set (rows := merge_sort upload_time_desc
                   (filter (λ r, Files.firebase_uid r = uid user) (files w))).
    exists (joined (summaries w) <$> rows), rows.
    split; [by apply get_materials_eq|].
    split; [apply merge_sort_Permutation|]. split.
    + apply Forall2_fmap_l, Forall_Forall2_diag, Forall_forall.
      intros r _. split; [reflexivity|apply joined_latest_summary].
    + intros m Hm. apply list_elem_of_fmap in Hm as (r & -> & _).
      apply joined_latest_summary.
Qed.

(** Version 2 was written before version 1; the summary returned is the
    row of version 2, and the one entry of alice's materials carries its
    text. *)
Lemma latest_is_max_version_witness :
  (∃ r s, (get_summary quiet "f1" alice out_of_order).1 = Ok r ∧
          max_version_row (summaries out_of_order) "f1" s ∧
          same_summary r s ∧
          SummaryResponse.document_id r = "f1" ∧
          ∀ s', s' ∈ summaries out_of_order → Summaries.document_id s' = "f1" →
                Summaries.version s' ≤ SummaryResponse.version r) ∧
  (∃ ms rows,
     (get_materials quiet alice out_of_order).1 = Ok ms ∧
     rows ≡ₚ filter (λ r, Files.firebase_uid r = uid alice) (files out_of_order) ∧
     Forall2 (latest_joined (summaries out_of_order)) ms rows).
Proof.
  destruct (latest_is_max_version quiet alice out_of_order (λ n, eq_refl))
    as [Hsummary (ms & rows & Hms & Hrows & Hjoin & _)].
  split.
  - refine (Hsummary "f1" _ [] _ _ _ _ _).
    + reflexivity.
    + reflexivity.
    + apply list_elem_of_here.
    + reflexivity.
  - by exists ms, rows.
Defined.

(** In [out_of_order] the row written last has version 1, and the
    summary returned is version 2. *)
Example latest_not_last_written :
  Summaries.version <$> last (summaries out_of_order) = Some 1 ∧
  SummaryResponse.version <$>
    match (get_summary quiet "f1" alice out_of_order).1 with
    | Ok r => Some r
    | Raise _ => None
    end = Some 2 ∧
  Material.latest_summary <$> (match (get_materials quiet alice out_of_order).1 with
                               | Ok ms => ms
                               | Raise _ => []
                               end) = [Some "second"].
Proof. vm_compute. done. Qed.

(** ** User profiles *)

Section Profile.
Variable env : Env.
Variables (firebase_uid : string) (email : option string).

Lemma ensure_user_profile_frame w :
  profile_frame w (ensure_user_profile env firebase_uid email w).2 ∧
  (tick w < tick (ensure_user_profile env firebase_uid email w).2)%nat.
Proof.
  destruct (ensure_user_profile env firebase_uid email w) as [r w'] eqn:H.
  unfold ensure_user_profile, select_users_profile, insert_users_profile,
    update_users_profile_email in H.
  rewrite bind_eq in H. unfold external in H.
  destruct (fault env (tick w)); simpl in H.
  { injection H as <- <-. unfold profile_frame. simpl. repeat split; lia. }
  destruct (filter _ (users_profile w)) as [|first rest]; simpl in H.
  - destruct (fault env (S (tick w))); simpl in H; injection H as <- <-;
      unfold profile_frame; simpl; repeat split; lia.
  - destruct (truthy email && negb (truthy (UsersProfile.email first)));
      simpl in H.
    + destruct (fault env (S (tick w))); simpl in H; injection H as <- <-;
        unfold profile_frame; simpl; repeat split; lia.
    + injection H as <- <-. unfold profile_frame. simpl. repeat split; lia.
Qed.

Lemma ensure_user_profile_ok w :
  fault env (tick w) = None → fault env (S (tick w)) = None →
  (ensure_user_profile env firebase_uid email w).1 = Ok () ∧
  users_profile (ensure_user_profile env firebase_uid email w).2 =
  upserted firebase_uid email (users_profile w).
Proof.
  intros H0 H1.
  unfold ensure_user_profile, select_users_profile, insert_users_profile,
    update_users_profile_email, upserted, new_profile.
  rewrite bind_eq, (external_ok env _ w H0). simpl.
  destruct (filter _ (users_profile w)) as [|first rest].
  - by rewrite (external_ok env _ (advance w) H1).
  - destruct (truthy email && negb (truthy (UsersProfile.email first))).
    + by rewrite (external_ok env _ (advance w) H1).
    + done.
Qed.

Lemma filter_patch_email u (t : list UsersProfile.row) :
  filter (λ r, UsersProfile.firebase_uid r = u)
    (patch_email firebase_uid email <$> t) =
  patch_email firebase_uid email <$>
    filter (λ r, UsersProfile.firebase_uid r = u) t.
Proof.
  induction t as [|r t IH]; [done|]. rewrite fmap_cons, !filter_cons.
  assert (UsersProfile.firebase_uid (patch_email firebase_uid email r) =
          UsersProfile.firebase_uid r) as Hu
    by (unfold patch_email; by case_decide).
  rewrite Hu. case_decide; by rewrite ?fmap_cons, IH.
Qed.

Lemma upserted_twice t :
  upserted firebase_uid email (upserted firebase_uid email t) =
  upserted firebase_uid email t.
Proof.
  unfold upserted at 2.
  destruct (filter _ t) as [|first rest] eqn:Hsel.
  - unfold upserted. rewrite filter_app, Hsel. simpl.
    rewrite filter_cons_True by done. simpl.
    by destruct (truthy email).
  - destruct (truthy email) eqn:He; simpl; [|by unfold upserted; rewrite Hsel, He].
    destruct (truthy (UsersProfile.email first)) eqn:Hf; simpl.
    + unfold upserted. by rewrite Hsel, He, Hf.
    + unfold upserted. rewrite filter_patch_email, Hsel, fmap_cons.
      assert (UsersProfile.email (patch_email firebase_uid email first) = email)
        as ->.
      { assert (first ∈ first :: rest) as Hin by left.
        rewrite <- Hsel in Hin. apply list_elem_of_filter in Hin as [Hu _].
        unfold patch_email. by rewrite decide_True. }
      rewrite He, Hf. reflexivity.
Qed.

Lemma upserted_one_profile_each t :
  one_profile_each t → one_profile_each (upserted firebase_uid email t).
Proof.
  intros Hone u. unfold upserted.
  destruct (filter _ t) as [|first rest] eqn:Hsel.
  - rewrite filter_app, length_app. simpl. rewrite filter_cons. simpl.
    case_decide as Hu; simpl.
    + subst u. rewrite Hsel. simpl. lia.
    + specialize (Hone u). lia.
  - destruct (truthy email && negb (truthy (UsersProfile.email first)));
      [|apply Hone].
    rewrite filter_patch_email, length_fmap. apply Hone.
Qed.
End Profile.

(** C8, as amended.  When the store answers, [ensure_user_profile]
    succeeds and touches no store but [users_profile]; it appends a
    profile with null display name and the supplied email when the
    identity has none; when a profile exists it sets the email exactly
    when the supplied email is non-empty and the stored one is missing
    (null or the empty string), and leaves the table as it is otherwise;
    a second run with the same arguments changes nothing; and a table
    with at most one profile per identity stays so. *)
Theorem ensure_user_profile_upsert env firebase_uid email w :
  no_faults env →
  let once := (ensure_user_profile env firebase_uid email w).2 in
  let twice := (ensure_user_profile env firebase_uid email once).2 in
  (ensure_user_profile env firebase_uid email w).1 = Ok () ∧
  profile_frame w once ∧
  (filter (λ r, UsersProfile.firebase_uid r = firebase_uid) (users_profile w) = [] →
   users_profile once = users_profile w ++
     [ {| UsersProfile.firebase_uid := firebase_uid;
          UsersProfile.email := email;
          UsersProfile.display_name := None;
          UsersProfile.preferences := [] |} ]) ∧
  (∀ p rest,
     filter (λ r, UsersProfile.firebase_uid r = firebase_uid) (users_profile w)
     = p :: rest →
     (truthy email = true → truthy (UsersProfile.email p) = false →
      users_profile once = patch_email firebase_uid email <$> users_profile w) ∧
     (truthy email = false ∨ truthy (UsersProfile.email p) = true →
      users_profile once = users_profile w)) ∧
  same_stores twice once ∧
  (one_profile_each (users_profile w) → one_profile_each (users_profile once)).
Proof.
  intros Hnf once twice.
  destruct (ensure_user_profile_ok env firebase_uid email w (Hnf _) (Hnf _))
    as [Hr Hup].
  destruct (ensure_user_profile_ok env firebase_uid email once (Hnf _) (Hnf _))
    as [_ Hup2].
  destruct (ensure_user_profile_frame env firebase_uid email w) as [Hfr _].
  destruct (ensure_user_profile_frame env firebase_uid email once)
    as [(?&?&?&?&?&?&?) _].
  fold once in Hup, Hfr. fold twice in Hup2.
  split; [done|]. split; [done|]. split; [|split; [|split]].
  - intros Hnone. rewrite Hup. unfold upserted. by rewrite Hnone.
  - intros p rest Hsel. rewrite Hup. unfold upserted. rewrite Hsel. split.
    + by intros -> ->.
    + intros [-> | ->]; [done|]. by rewrite andb_false_r.
  - unfold same_stores. fold twice.
    rewrite Hup2, Hup, upserted_twice. by auto 10.
  - rewrite Hup. apply upserted_one_profile_each.
Qed.

Lemma ensure_user_profile_upsert_witness :
  users_profile (ensure_user_profile quiet "alice" (Some "alice@example.org")
                   empty_world).2 =
  [ {| UsersProfile.firebase_uid := "alice";
       UsersProfile.email := Some "alice@example.org";
       UsersProfile.display_name := None;
       UsersProfile.preferences := [] |} ].
Proof.
  refine (proj1 (proj2 (proj2
            (ensure_user_profile_upsert quiet "alice"
               (Some "alice@example.org") empty_world _))) _).
  - intros n. reflexivity.
  - reflexivity.
Defined.

(** C8 as stated fails: the stored email of [blank_email] is not null
    (it is the empty string), and the call overwrites it. *)
Lemma ensure_user_profile_overwrites_empty_email :
  UsersProfile.email <$> users_profile blank_email = [Some ""] ∧
  UsersProfile.email <$>
    users_profile (ensure_user_profile quiet "alice" (Some "alice@example.org")
                     blank_email).2 = [Some "alice@example.org"].
Proof. split; reflexivity. Qed.

(** ** Status documents *)

Lemma status_doc_fields firebase_uid file_id status progress message now :
  let d := status_doc firebase_uid file_id status progress message now in
  d !! "firebase_uid" = Some (VStr firebase_uid) ∧
  d !! "status" = Some (VStr status) ∧
  d !! "progress" = Some (VInt progress) ∧
  d !! "message" = Some (opt_str message) ∧
  d !! "expire_at" = Some (VTime (now + 24 * 3600)).
Proof. unfold status_doc. repeat split; by simplify_map_eq. Qed.

Lemma update_processing_status_ok env firebase_uid file_id status progress
  message w :
  fault env (tick w) = None →
  update_processing_status env firebase_uid file_id status progress message w =
  (Ok (), set_status_doc file_id
            (status_doc firebase_uid file_id status progress message
               (utc env (tick w)))
            (advance w)).
Proof.
  intros H. unfold update_processing_status, firestore_set, utcnow.
  rewrite bind_eq. cbn beta iota. by rewrite (external_ok env _ w H).
Qed.

Lemma update_processing_status_fail env firebase_uid file_id status progress
  message w msg :
  fault env (tick w) = Some msg →
  update_processing_status env firebase_uid file_id status progress message w =
  (Raise (Exception msg), advance w).
Proof.
  intros H. unfold update_processing_status, firestore_set, utcnow.
  rewrite bind_eq. cbn beta iota. by rewrite (external_fail env _ w msg H).
Qed.

Lemma get_status_absent env file_id user w :
  fault env (tick w) = None →
  processing_status w !! file_id = None →
  (get_status env file_id user w).1 = Raise (HTTPException 404 "Status not found").
Proof.
  intros H Hnone. unfold get_status, firestore_get.
  rewrite bind_eq, (external_ok env _ w H). simpl. by rewrite Hnone.
Qed.

Lemma get_status_present env file_id user w data :
  fault env (tick w) = None →
  processing_status w !! file_id = Some data →
  data !! "firebase_uid" = Some (VStr (uid user)) →
  (get_status env file_id user w).1 =
  (make_ProcessingStatus env file_id
     (default (VStr "unknown") (data !! "status"))
     (default (VInt 0) (data !! "progress"))
     (data !! "message") (advance w)).1.
Proof.
  intros H Hdoc Hown. unfold get_status, firestore_get.
  rewrite bind_eq, (external_ok env _ w H). simpl. rewrite Hdoc, Hown. simpl.
  by rewrite String.eqb_refl.
Qed.

(** [get_status] never reads [expire_at]: whatever the field holds, the
    answer is the same.  Removing the documents whose expiry has passed
    is left to the store. *)
Lemma get_status_ignores_expire_at env file_id user w data v :
  processing_status w !! file_id = Some data →
  (get_status env file_id user
     (set_processing_status
        (<[file_id := <["expire_at" := v]> data]> (processing_status w)) w)).1 =
  (get_status env file_id user w).1.
Proof.
  intros Hdoc. unfold get_status, firestore_get. rewrite !bind_eq.
  unfold external. simpl. destruct (fault env (tick w)); [done|]. simpl.
  rewrite lookup_insert_eq, Hdoc. rewrite !lookup_insert_ne by done.
  destruct (differs_from _ _); [done|]. unfold make_ProcessingStatus.
  by destruct (default (VStr "unknown") (data !! "status")),
    (as_int env (default (VInt 0) (data !! "progress"))),
    (data !! "message") as [[]|].
Qed.



(** C4.  The code does not keep the claim.  The accepted upload of
    [notes_pdf] writes the status document of its identifier twice:
    ["uploading"] at the clock reading [utc quiet 3], which creates the
    document, and ["uploaded"] at the reading [utc quiet 8], which
    replaces it.  Each write stamps [expire_at] with its own reading
    + 24 hours, so the document that remains expires 24 hours after its
    last write and not 24 hours after its creation, as the comment on
    the field in [update_processing_status] has it. *)
Theorem status_expiry_restarts_at_each_write :
  let id := "00000000-0000-0000-0000-000000000002" in
  let w := (upload_file quiet notes_pdf true alice empty_world).2 in
  processing_status empty_world !! id = None ∧
  expiries (status_history w) =
  [(id, Some (VTime (utc quiet 3 + 24 * 3600)));
   (id, Some (VTime (utc quiet 8 + 24 * 3600)))] ∧
  (processing_status w !! id) ≫= (λ d, d !! "expire_at") =
  Some (VTime (utc quiet 8 + 24 * 3600)) ∧
  (processing_status w !! id) ≫= (λ d, d !! "expire_at") ≠
  Some (VTime (utc quiet 3 + 24 * 3600)).
Proof. vm_compute. repeat split; congruence. Qed.

(** ** POST /api/upload: the type check *)

Lemma upload_file_unsupported env file background_tasks user w :
  content_type file ≫= (λ c, SUPPORTED_TYPES !! c) = None →
  upload_file env file background_tasks user w =
  match ensure_user_profile env (uid user) (user_email user) w with
  | (Ok _, w') =>
      (Raise (HTTPException 400
                ("Unsupported file type: " +:+ fmt_opt (content_type file))), w')
  | (Raise e, w') => (Raise e, w')
  end.
Proof.
  intros Hct. unfold upload_file. rewrite bind_eq, Hct.
  by destruct (ensure_user_profile env (uid user) (user_email user) w) as [[|] ?].
Qed.

(** C3, as amended.  An upload whose content type is not in
    [SUPPORTED_TYPES] leaves the world exactly as the profile upsert that
    precedes the check leaves it: [files], [documents_metadata],
    [summaries], the status documents, the bucket and the task queue are
    untouched; only [users_profile] may have changed.  The request is
    answered with the exception of the upsert if that raised, and with
    status 400 otherwise. *)
Theorem upload_file_rejects_unsupported env file background_tasks user w :
  content_type file ≫= (λ c, SUPPORTED_TYPES !! c) = None →
  profile_frame w (upload_file env file background_tasks user w).2 ∧
  (upload_file env file background_tasks user w).2 =
  (ensure_user_profile env (uid user) (user_email user) w).2 ∧
  (upload_file env file background_tasks user w).1 =
  match (ensure_user_profile env (uid user) (user_email user) w).1 with
  | Ok _ => Raise (HTTPException 400
                     ("Unsupported file type: " +:+ fmt_opt (content_type file)))
  | Raise e => Raise e
  end ∧
  (fault env (tick w) = None → fault env (S (tick w)) = None →
   (upload_file env file background_tasks user w).1 =
   Raise (HTTPException 400
            ("Unsupported file type: " +:+ fmt_opt (content_type file)))).
Proof.
  intros Hct. rewrite (upload_file_unsupported env file background_tasks user w Hct).
  pose proof (ensure_user_profile_frame env (uid user) (user_email user) w)
    as [Hfr _].
  pose proof (ensure_user_profile_ok env (uid user) (user_email user) w) as Hok.
  destruct (ensure_user_profile env (uid user) (user_email user) w) as [[[]|e] w'];
    simpl in *; repeat split; try apply Hfr; try done.
  intros H0 H1. by destruct (Hok H0 H1).
Qed.

Lemma upload_file_rejects_unsupported_witness :
  (upload_file quiet notes_txt true alice empty_world).1 =
  Raise (HTTPException 400 "Unsupported file type: text/plain").
Proof.
  refine (proj2 (proj2 (proj2
            (upload_file_rejects_unsupported quiet notes_txt true alice
               empty_world _))) _ _); reflexivity.
Defined.

(** C3 as stated fails: the rejected upload of a user seen for the first
    time has written that user's profile. *)
Lemma upload_file_unsupported_writes_profile :
  (upload_file quiet notes_txt true alice empty_world).1 =
  Raise (HTTPException 400 "Unsupported file type: text/plain") ∧
  users_profile empty_world = [] ∧
  users_profile (upload_file quiet notes_txt true alice empty_world).2 =
  [ {| UsersProfile.firebase_uid := "alice";
       UsersProfile.email := Some "alice@example.org";
       UsersProfile.display_name := None;
       UsersProfile.preferences := [] |} ].
Proof. vm_compute. done. Qed.

(** ** Storage paths *)

Lemma chars_app (a b : string) : chars (a +:+ b) = chars a ++ chars b.
Proof. induction a as [|c a IH]; simpl; [done|]. by rewrite IH. Qed.

Lemma chars_inj (a b : string) : chars a = chars b → a = b.
Proof.
  intros H. rewrite <- (String.string_of_list_ascii_of_string a),
    <- (String.string_of_list_ascii_of_string b). by rewrite H.
Qed.

Lemma has_dot_chars s : has_dot s = false → "."%char ∉ chars s.
Proof.
  induction s as [|c s IH]; simpl; [by intros _ ?%elem_of_nil|].
  intros [Hc Hs]%orb_false_iff [Heq|Hin]%elem_of_cons.
  - subst c. by rewrite Ascii.eqb_refl in Hc.
  - by apply IH.
Qed.

Lemma has_dot_app a b : has_dot (a +:+ b) = has_dot a || has_dot b.
Proof. induction a as [|c a IH]; simpl; [done|]. by rewrite IH, orb_assoc. Qed.

Lemma last_segment_go_no_dot acc s :
  has_dot acc = false → has_dot (last_segment_go acc s) = false.
Proof.
  revert acc. induction s as [|c s IH]; intros acc Hacc; simpl; [done|].
  destruct (Ascii.eqb c ".") eqn:Hc; apply IH; [done|].
  rewrite has_dot_app, Hacc. simpl. by rewrite Hc.
Qed.

Lemma supported_no_dot c file_type :
  SUPPORTED_TYPES !! c = Some file_type → has_dot file_type = false.
Proof.
  revert c file_type. change (map_Forall (λ _ ft, has_dot ft = false) SUPPORTED_TYPES).
  refine (bool_decide_unpack _ _). by vm_compute.
Qed.

Lemma file_ext_of_no_dot name c file_type :
  SUPPORTED_TYPES !! c = Some file_type →
  has_dot (file_ext_of name file_type) = false.
Proof.
  intros Hs. unfold file_ext_of. destruct (has_dot name).
  - by apply last_segment_go_no_dot.
  - by apply (supported_no_dot c).
Qed.

Lemma length_hex_digits w n : length (chars (hex_digits w n)) = w.
Proof.
  revert n. induction w as [|w IH]; intros n; simpl; [done|].
  rewrite chars_app, length_app, IH. simpl. lia.
Qed.

Lemma length_uuid_str n : length (chars (uuid_str n)) = 36%nat.
Proof.
  unfold uuid_str. rewrite !chars_app, !length_app, !length_hex_digits. done.
Qed.

(** Two lists cut at the first occurrence of [c] agree part by part. *)
Lemma cut_at_first {A} (c : A) (a1 a2 b1 b2 : list A) :
  c ∉ a1 → c ∉ a2 → a1 ++ c :: b1 = a2 ++ c :: b2 → a1 = a2 ∧ b1 = b2.
Proof.
  revert a2. induction a1 as [|x a1 IH]; intros [|y a2] H1 H2 Heq; simpl in *.
  - by injection Heq.
  - injection Heq as <- _. destruct H2. by left.
  - injection Heq as -> _. destruct H1. by left.
  - injection Heq as -> Heq.
    destruct (IH a2) as [-> ->]; [|by intros ?; apply H2; right|done|done].
    by intros ?; apply H1; right.
Qed.

Lemma reverse_eq {A} (a b : list A) : reverse a = reverse b → a = b.
Proof.
  intros H. by rewrite <- (reverse_involutive a), H, reverse_involutive.
Qed.

Lemma storage_path_of_inj u1 i1 e1 u2 i2 e2 :
  length (chars i1) = length (chars i2) →
  has_dot e1 = false → has_dot e2 = false →
  storage_path_of u1 i1 e1 = storage_path_of u2 i2 e2 →
  u1 = u2 ∧ i1 = i2 ∧ e1 = e2.
Proof.
  intros Hlen He1 He2 Heq. apply (f_equal chars) in Heq.
  unfold storage_path_of in Heq. rewrite !chars_app in Heq.
  apply app_inv_head in Heq. apply (f_equal reverse) in Heq.
  rewrite !reverse_app in Heq. simpl in Heq. rewrite <- !app_assoc in Heq.
  simpl in Heq.
  apply cut_at_first in Heq as [Hext Heq].
  2,3: rewrite elem_of_reverse; by apply has_dot_chars.
  apply app_inj_1 in Heq as [Hid Heq]; [|by rewrite !length_reverse].
  assert (reverse (chars u1) = reverse (chars u2)) as Hu by congruence.
  apply reverse_eq in Hext, Hid, Hu. by repeat split; apply chars_inj.
Qed.

(** ** Stepping through a handler *)

Ltac run_cbn :=
  cbn [bind ret raise try_except utcnow new_uuid add_task advance
       set_users_profile set_files set_documents_metadata set_summaries
       set_status_doc set_processing_status set_bucket set_background
       users_profile files documents_metadata summaries processing_status
       bucket status_history background tick fst snd] in *.

Ltac expose H :=
  repeat first [ rewrite bind_eq in H | rewrite try_except_eq in H
               | progress run_cbn ].

(** Decide the outcome of the next external call of the run [H]. *)
Ltac next_call env H :=
  expose H;
  let msg := fresh "msg" in
  let E := fresh "E" in
  lazymatch type of H with
  | context [update_processing_status env ?u ?i ?s ?p ?m ?w] =>
      destruct (fault env (tick w)) as [msg|] eqn:E;
      [ rewrite (update_processing_status_fail env u i s p m w msg E) in H
      | rewrite (update_processing_status_ok env u i s p m w E) in H ];
      expose H
  | context [external env ?f ?w] =>
      destruct (fault env (tick w)) as [msg|] eqn:E;
      [ rewrite (external_fail env f w msg E) in H
      | rewrite (external_ok env f w E) in H ];
      expose H
  end.

Lemma observe_status_doc firebase_uid file_id status progress message now :
  observe (status_doc firebase_uid file_id status progress message now) =
  Some (status, progress, message).
Proof.
  unfold observe.
  destruct (status_doc_fields firebase_uid file_id status progress message now)
    as (_ & -> & -> & -> & _).
  by destruct message.
Qed.

Lemma reported_status_doc env id firebase_uid status progress message now :
  (∀ m, status = "error" → message = Some m → ∃ n, fault env n = Some m) →
  reported env id (id, status_doc firebase_uid id status progress message now).
Proof.
  intros Hm. split; [done|]. simpl. intros m. rewrite observe_status_doc.
  intros [= -> -> ->]. by apply Hm.
Qed.

Ltac history_extends :=
  rewrite <- ?app_assoc; first [ reflexivity | symmetry; apply app_nil_r ].

Ltac all_reported :=
  repeat first
    [ apply Forall_nil_2
    | apply Forall_cons; split;
      [ apply reported_status_doc; intros ? ? ?; simplify_eq/=; eauto | ]
    | apply Forall_app; split ].

Ltac shown_follows :=
  unfold shown; cbn [map app snd]; rewrite ?observe_status_doc; reflexivity.

(** ** Runs stopped by a failure *)



(** ** Traces of the pipeline and of the handlers *)

Section Traces.
Variable env : Env.











(** The run of a handler after a failure: nothing is promised beyond the
    trace. *)
Ltac raise_leaf H :=
  injection H as <- <-; run_cbn; split; [lia|];
  eexists; split; [history_extends|]; split; [all_reported; done|];
  split; [shown_follows|done].

(** The run of a handler that returned its response. *)
Ltac ok_leaf H :=
  injection H as <- <-; run_cbn; split; [lia|];
  eexists; split; [history_extends|]; split; [all_reported; done|];
  split; [shown_follows|];
  split; [reflexivity|]; split; [shown_follows|]; split; [lia|].

Lemma upload_url_run request user w r w' :
  upload_url env request user w = (r, w') →
  ∃ w1, profile_frame w w1 ∧ (tick w < tick w1)%nat ∧ (tick w1 ≤ tick w')%nat ∧
    let id := uuid_str (uuid4 env (tick w1)) in
    ∃ tr, status_history w' = status_history w1 ++ tr ∧
      Forall (reported env id) tr ∧
      follows (sequence_of UrlKind) (shown tr) = true ∧
      match r with
      | Ok resp =>
          FileUploadResponse.file_id resp = id ∧
          stages (shown tr) = [Some ("extracting", 30)] ∧
          (tick w1 < tick w')%nat ∧
          background w' =
          background w1 ++ [process_url_background (uid user) id (url request)] ∧
          (∃ f, files w' = files w1 ++ [f] ∧ Files.file_id f = id ∧
                Files.firebase_uid f = uid user) ∧
          documents_metadata w' = documents_metadata w1 ++
            [ {| DocumentsMetadata.id := id;
                 DocumentsMetadata.firebase_uid := uid user |} ]
      | Raise _ => True
      end.
Proof.
  intros H. unfold upload_url in H. rewrite bind_eq in H.
  pose proof (ensure_user_profile_frame env (uid user) (user_email user) w)
    as [Hfr Htick].
  destruct (ensure_user_profile env (uid user) (user_email user) w)
    as [[[]|e] w1] eqn:He; simpl in Hfr, Htick; exists w1;
    (split; [done|]); (split; [done|]); [|raise_leaf H].
  unfold insert_files, insert_documents_metadata in H.
  do 3 (next_call env H; [raise_leaf H|]).
  ok_leaf H. eauto 10.
Qed.

Lemma upload_text_run request user w r w' :
  upload_text env request user w = (r, w') →
  ∃ w1, profile_frame w w1 ∧ (tick w < tick w1)%nat ∧ (tick w1 ≤ tick w')%nat ∧
    let id := uuid_str (uuid4 env (tick w1)) in
    ∃ tr, status_history w' = status_history w1 ++ tr ∧
      Forall (reported env id) tr ∧
      follows (sequence_of TextKind) (shown tr) = true ∧
      match r with
      | Ok resp =>
          FileUploadResponse.file_id resp = id ∧
          stages (shown tr) = [Some ("summarizing", 50)] ∧
          (tick w1 < tick w')%nat ∧
          (∃ title, background w' =
             background w1 ++
             [process_text_background (uid user) id (text request) title]) ∧
          (∃ f, files w' = files w1 ++ [f] ∧ Files.file_id f = id ∧
                Files.firebase_uid f = uid user) ∧
          documents_metadata w' = documents_metadata w1 ++
            [ {| DocumentsMetadata.id := id;
                 DocumentsMetadata.firebase_uid := uid user |} ]
      | Raise _ => True
      end.
Proof.
  intros H. unfold upload_text in H. rewrite bind_eq in H.
  pose proof (ensure_user_profile_frame env (uid user) (user_email user) w)
    as [Hfr Htick].
  destruct (ensure_user_profile env (uid user) (user_email user) w)
    as [[[]|e] w1] eqn:He; simpl in Hfr, Htick; exists w1;
    (split; [done|]); (split; [done|]); [|raise_leaf H].
  unfold insert_files, insert_documents_metadata in H.
  do 3 (next_call env H; [raise_leaf H|]).
  ok_leaf H. eauto 10.
Qed.

Lemma upload_file_run file background_tasks user w r w' :
  upload_file env file background_tasks user w = (r, w') →
  ∃ w1, profile_frame w w1 ∧ (tick w < tick w1)%nat ∧ (tick w1 ≤ tick w')%nat ∧
    let id := uuid_str (uuid4 env (tick w1)) in
    ∃ tr, status_history w' = status_history w1 ++ tr ∧
      Forall (reported env id) tr ∧
      follows (sequence_of BinaryFile) (shown tr) = true ∧
      match r with
      | Ok resp =>
          FileUploadResponse.file_id resp = id ∧
          stages (shown tr) = [Some ("uploading", 10); Some ("uploaded", 25)] ∧
          (tick w1 < tick w')%nat ∧
          background w' =
          background w1 ++
          (if background_tasks
           then [process_file_background (uid user) id
                   (FileUploadResponse.storage_path resp)
                   (FileUploadResponse.file_type resp)]
           else []) ∧
          (∃ f, files w' = files w1 ++ [f] ∧ Files.file_id f = id ∧
                Files.firebase_uid f = uid user ∧
                Files.storage_path f = FileUploadResponse.storage_path resp) ∧
          documents_metadata w' = documents_metadata w1 ++
            [ {| DocumentsMetadata.id := id;
                 DocumentsMetadata.firebase_uid := uid user |} ] ∧
          is_Some (bucket w' !! FileUploadResponse.storage_path resp) ∧
          ∃ c name,
            content_type file = Some c ∧ filename file = Some name ∧
            SUPPORTED_TYPES !! c = Some (FileUploadResponse.file_type resp) ∧
            FileUploadResponse.storage_path resp =
            storage_path_of (uid user) id
              (file_ext_of name (FileUploadResponse.file_type resp))
      | Raise _ => True
      end.
Proof.
  intros H. unfold upload_file in H. rewrite bind_eq in H.
  pose proof (ensure_user_profile_frame env (uid user) (user_email user) w)
    as [Hfr Htick].
  destruct (ensure_user_profile env (uid user) (user_email user) w)
    as [[[]|e] w1] eqn:He; simpl in Hfr, Htick; exists w1;
    (split; [done|]); (split; [done|]); [|raise_leaf H].
  destruct (content_type file) as [c|] eqn:Hc; simpl in H; [|raise_leaf H].
  destruct (SUPPORTED_TYPES !! c) as [file_type|] eqn:Hs; [|raise_leaf H].
  expose H.
  destruct (filename file) as [name|] eqn:Hname; [|raise_leaf H].
  unfold file_read, blob_upload, insert_files, insert_documents_metadata in H.
  next_call env H; [raise_leaf H|].
  do 5 (next_call env H; [next_call env H; raise_leaf H|]).
  destruct background_tasks; expose H.
  - ok_leaf H. split; [done|]. split; [eauto 10|]. split; [done|].
    split; [by rewrite lookup_insert_eq|]. eauto 10.
  - ok_leaf H. split; [by rewrite app_nil_r|]. split; [eauto 10|]. split; [done|].
    split; [by rewrite lookup_insert_eq|]. eauto 10.
Qed.





End Traces.



(** C6.  An intake that returns its response has appended exactly one
    row to [files] and one row to [documents_metadata], both carrying the
    identifier drawn in this request (the response's [file_id]) and the
    caller's identity; so the two tables keep agreeing on identifiers and
    owners if they did before. *)
Theorem intake_inserts_pair env s user w r w' :
  intake env s user w = (Ok r, w') →
  ∃ n f,
    (tick w ≤ n < tick w')%nat ∧
    FileUploadResponse.file_id r = uuid_str (uuid4 env n) ∧
    files w' = files w ++ [f] ∧
    Files.file_id f = FileUploadResponse.file_id r ∧
    Files.firebase_uid f = uid user ∧
    documents_metadata w' = documents_metadata w ++
      [ {| DocumentsMetadata.id := FileUploadResponse.file_id r;
           DocumentsMetadata.firebase_uid := uid user |} ] ∧
    (tables_agree w → tables_agree w').
Proof.
  intros H.
  assert (∃ w1, profile_frame w w1 ∧ (tick w < tick w1 < tick w')%nat ∧
            FileUploadResponse.file_id r = uuid_str (uuid4 env (tick w1)) ∧
            (∃ f, files w' = files w1 ++ [f] ∧
                  Files.file_id f = FileUploadResponse.file_id r ∧
                  Files.firebase_uid f = uid user) ∧
            documents_metadata w' = documents_metadata w1 ++
              [ {| DocumentsMetadata.id := FileUploadResponse.file_id r;
                   DocumentsMetadata.firebase_uid := uid user |} ])
    as (w1 & Hfr & Htick & Hid & (f & Hf & Hfid & Hfown) & Hdm).
  { destruct s as [file bt|request|request]; simpl in H.
    - apply upload_file_run in H
        as (w1 & Hfr & ? & ? & tr & _ & _ & _ & Hid & _ & ? & _ & Hf & Hdm & _).
      exists w1. rewrite Hid. destruct Hf as (f & ? & ? & ? & _).
      split; [done|]. split; [lia|]. split; [done|]. split; [by exists f|done].
    - apply upload_url_run in H
        as (w1 & Hfr & ? & ? & tr & _ & _ & _ & Hid & _ & ? & _ & Hf & Hdm).
      exists w1. rewrite Hid.
      split; [done|]. split; [lia|]. by split.
    - apply upload_text_run in H
        as (w1 & Hfr & ? & ? & tr & _ & _ & _ & Hid & _ & ? & _ & Hf & Hdm).
      exists w1. rewrite Hid.
      split; [done|]. split; [lia|]. by split. }
  destruct Hfr as (Hfiles & Hdocs & _).
  rewrite Hfiles in Hf. rewrite Hdocs in Hdm.
  exists (tick w1), f.
  split; [lia|]. do 5 (split; [done|]). intros Hagree id owner. split.
  - intros (f' & Hin & Hfid' & Hown'). rewrite Hdm. rewrite Hf in Hin.
    apply elem_of_app in Hin as [Hin|Hin%list_elem_of_singleton].
    + apply elem_of_app. left. apply Hagree. eauto.
    + subst f'. apply elem_of_app. right. apply list_elem_of_singleton.
      by rewrite <- Hfid', <- Hown', Hfid, Hfown.
  - rewrite Hdm. intros [Hin|Hin%list_elem_of_singleton]%elem_of_app.
    + apply Hagree in Hin as (f' & ? & ? & ?). exists f'. rewrite Hf.
      split; [apply elem_of_app; by left|done].
    + injection Hin as -> ->. exists f. rewrite Hf.
      split; [apply elem_of_app; right; by apply list_elem_of_singleton|done].
Qed.

Lemma intake_inserts_pair_witness :
  ∃ r w', intake quiet (SubmitText cell_note) alice empty_world = (Ok r, w') ∧
    ∃ n f,
      (tick empty_world ≤ n < tick w')%nat ∧
      FileUploadResponse.file_id r = uuid_str (uuid4 quiet n) ∧
      files w' = files empty_world ++ [f] ∧
      Files.file_id f = FileUploadResponse.file_id r ∧
      Files.firebase_uid f = uid alice ∧
      documents_metadata w' = documents_metadata empty_world ++
        [ {| DocumentsMetadata.id := FileUploadResponse.file_id r;
             DocumentsMetadata.firebase_uid := uid alice |} ] ∧
      (tables_agree empty_world → tables_agree w').
Proof.
  destruct (intake quiet (SubmitText cell_note) alice empty_world)
    as [[r|e] w'] eqn:H.
  - exists r, w'. split; [reflexivity|].
    exact (intake_inserts_pair quiet (SubmitText cell_note) alice empty_world
             r w' H).
  - vm_compute in H. discriminate.
Defined.

(** C9.  The storage paths of two accepted uploads have the form
    [users/<owner>/uploads/<file_id>.<ext>], and they differ as soon as
    the submissions' identifiers differ or their owners differ, whatever
    the file names. *)
Theorem storage_paths_differ env1 env2 file1 file2 bt1 bt2 user1 user2 w1 w2
  r1 r2 :
  (upload_file env1 file1 bt1 user1 w1).1 = Ok r1 →
  (upload_file env2 file2 bt2 user2 w2).1 = Ok r2 →
  FileUploadResponse.file_id r1 ≠ FileUploadResponse.file_id r2 ∨
  uid user1 ≠ uid user2 →
  (∃ ext1 ext2,
     FileUploadResponse.storage_path r1 =
     storage_path_of (uid user1) (FileUploadResponse.file_id r1) ext1 ∧
     FileUploadResponse.storage_path r2 =
     storage_path_of (uid user2) (FileUploadResponse.file_id r2) ext2) ∧
  FileUploadResponse.storage_path r1 ≠ FileUploadResponse.storage_path r2.
Proof.
  intros H1 H2 Hdiff.
  destruct (upload_file env1 file1 bt1 user1 w1) as [x1 w1'] eqn:E1.
  destruct (upload_file env2 file2 bt2 user2 w2) as [x2 w2'] eqn:E2.
  simpl in H1, H2. subst x1 x2.
  apply upload_file_run in E1
    as (v1 & _ & _ & _ & tr1 & _ & _ & _ & Hid1 & _ & _ & _ & _ & _ & _ &
        c1 & name1 & _ & _ & Hs1 & Hp1).
  apply upload_file_run in E2
    as (v2 & _ & _ & _ & tr2 & _ & _ & _ & Hid2 & _ & _ & _ & _ & _ & _ &
        c2 & name2 & _ & _ & Hs2 & Hp2).
  rewrite <- Hid1 in Hp1. rewrite <- Hid2 in Hp2. split; [eauto|].
  rewrite Hp1, Hp2. intros Heq.
  apply storage_path_of_inj in Heq as (Hu & Hi & _).
  - by destruct Hdiff.
  - by rewrite Hid1, Hid2, !length_uuid_str.
  - by apply (file_ext_of_no_dot _ c1).
  - by apply (file_ext_of_no_dot _ c2).
Qed.

(** Alice and bob upload a file of the same name. *)
Lemma storage_paths_differ_witness :
  ∃ r1 r2,
    (upload_file quiet notes_pdf true alice empty_world).1 = Ok r1 ∧
    (upload_file quiet notes_pdf true bob empty_world).1 = Ok r2 ∧
    FileUploadResponse.storage_path r1 ≠ FileUploadResponse.storage_path r2.
Proof.
  destruct (upload_file quiet notes_pdf true alice empty_world).1
    as [r1|e1] eqn:H1; [|vm_compute in H1; discriminate].
  destruct (upload_file quiet notes_pdf true bob empty_world).1
    as [r2|e2] eqn:H2; [|vm_compute in H2; discriminate].
  exists r1, r2. split; [reflexivity|]. split; [reflexivity|].
  refine (proj2 (storage_paths_differ quiet quiet notes_pdf notes_pdf true true
                   alice bob empty_world empty_world r1 r2 H1 H2 _)).
  right. vm_compute. discriminate.
Defined.





(** The text note of the scenario: [summarizing(50)], [complete(100)],
    one summary of version 1. *)
Example text_note_scenario :
  shown (status_history (submit quiet (SubmitText cell_note) alice empty_world).2) =
  [ Some ("summarizing", 50, Some "Generating summary...");
    Some ("complete", 100, None) ] ∧
  Summaries.version <$>
    summaries (submit quiet (SubmitText cell_note) alice empty_world).2 = [1].
Proof. vm_compute. done. Qed.

(** A PDF whose extractor fails (event 11 of the run): the error is the
    last write and no summary is stored. *)
Example extractor_failure_scenario :
  shown (status_history
           (submit (failing_at 11 "extractor failed") (SubmitFile notes_pdf true)
              alice empty_world).2) =
  [ Some ("uploading", 10, Some "Uploading file...");
    Some ("uploaded", 25, Some "File uploaded successfully");
    Some ("extracting", 40, None);
    Some ("error", 0, Some "extractor failed") ] ∧
  summaries (submit (failing_at 11 "extractor failed") (SubmitFile notes_pdf true)
               alice empty_world).2 = [].
Proof. vm_compute. done. Qed.

(** * Further properties of the handlers *)

(** ** Accepted uploads, in detail *)

Section Accepted.
Variable env : Env.

Lemma upload_file_accepted_effects file background_tasks user w r w' :
  upload_file env file background_tasks user w = (Ok r, w') →
  ∃ w1 c name file_type t_row t_status,
    ensure_user_profile env (uid user) (user_email user) w = (Ok (), w1) ∧
    content_type file = Some c ∧ filename file = Some name ∧
    SUPPORTED_TYPES !! c = Some file_type ∧
    let id := uuid_str (uuid4 env (tick w1)) in
    let path := storage_path_of (uid user) id (file_ext_of name file_type) in
    r = {| FileUploadResponse.file_id := id;
           FileUploadResponse.file_name := name;
           FileUploadResponse.file_type := file_type;
           FileUploadResponse.storage_path := path;
           FileUploadResponse.status := "processing" |} ∧
    files w' = files w1 ++
      [ {| Files.file_id := id; Files.firebase_uid := uid user;
           Files.file_name := name; Files.file_type := file_type;
           Files.storage_path := path; Files.upload_time := t_row |} ] ∧
    bucket w' = <[path := (content file, c)]> (bucket w1) ∧
    processing_status w' !! id =
      Some (status_doc (uid user) id "uploaded" 25
              (Some "File uploaded successfully") t_status) ∧
    (∀ id', id' ≠ id → processing_status w' !! id' = processing_status w1 !! id') ∧
    summaries w' = summaries w1 ∧ users_profile w' = users_profile w1.
Proof.
  intros H. unfold upload_file in H. rewrite bind_eq in H.
  destruct (ensure_user_profile env (uid user) (user_email user) w)
    as [[[]|e] w1] eqn:He; [|done].
  destruct (content_type file) as [c|] eqn:Hc; simpl in H; [|done].
  destruct (SUPPORTED_TYPES !! c) as [file_type|] eqn:Hs; [|done].
  expose H.
  destruct (filename file) as [name|] eqn:Hname; [|done].
  unfold file_read, blob_upload, insert_files, insert_documents_metadata in H.
  next_call env H; [done|].
  do 5 (next_call env H; [next_call env H; done|]).
  exists w1, c, name, file_type. do 2 eexists.
  do 4 (split; [done|]).
  destruct background_tasks; expose H; injection H as <- <-; run_cbn;
    (split; [reflexivity|]); (split; [reflexivity|]); (split; [reflexivity|]);
    (split; [by rewrite lookup_insert_eq|]);
    (split; [by intros id' Hne; rewrite !lookup_insert_ne|done]).
Qed.

Lemma upload_url_accepted_effects request user w r w' :
  upload_url env request user w = (Ok r, w') →
  ∃ w1 t_row t_status,
    ensure_user_profile env (uid user) (user_email user) w = (Ok (), w1) ∧
    let id := uuid_str (uuid4 env (tick w1)) in
    let name := or_else (url_title request) (take_str 100 (url request)) in
    r = {| FileUploadResponse.file_id := id;
           FileUploadResponse.file_name := name;
           FileUploadResponse.file_type := "url";
           FileUploadResponse.storage_path := url request;
           FileUploadResponse.status := "processing" |} ∧
    files w' = files w1 ++
      [ {| Files.file_id := id; Files.firebase_uid := uid user;
           Files.file_name := name; Files.file_type := "url";
           Files.storage_path := url request; Files.upload_time := t_row |} ] ∧
    bucket w' = bucket w1 ∧
    processing_status w' !! id =
      Some (status_doc (uid user) id "extracting" 30
              (Some "Extracting content from URL...") t_status) ∧
    (∀ id', id' ≠ id → processing_status w' !! id' = processing_status w1 !! id') ∧
    summaries w' = summaries w1 ∧ users_profile w' = users_profile w1.
Proof.
  intros H. unfold upload_url in H. rewrite bind_eq in H.
  destruct (ensure_user_profile env (uid user) (user_email user) w)
    as [[[]|e] w1] eqn:He; [|done].
  unfold insert_files, insert_documents_metadata in H.
  do 3 (next_call env H; [done|]).
  exists w1. do 2 eexists. split; [done|].
  injection H as <- <-; run_cbn.
  (split; [reflexivity|]); (split; [reflexivity|]); (split; [reflexivity|]);
    (split; [by rewrite lookup_insert_eq|]);
    (split; [by intros id' Hne; rewrite !lookup_insert_ne|done]).
Qed.

Lemma upload_text_accepted_effects request user w r w' :
  upload_text env request user w = (Ok r, w') →
  ∃ w1 t_row t_status,
    ensure_user_profile env (uid user) (user_email user) w = (Ok (), w1) ∧
    let id := uuid_str (uuid4 env (tick w1)) in
    let name := or_else (text_title request) (derived_title (text request)) in
    r = {| FileUploadResponse.file_id := id;
           FileUploadResponse.file_name := name;
           FileUploadResponse.file_type := "url";
           FileUploadResponse.storage_path := "text://" +:+ id;
           FileUploadResponse.status := "processing" |} ∧
    files w' = files w1 ++
      [ {| Files.file_id := id; Files.firebase_uid := uid user;
           Files.file_name := name; Files.file_type := "url";
           Files.storage_path := "text://" +:+ id;
           Files.upload_time := t_row |} ] ∧
    bucket w' = bucket w1 ∧
    processing_status w' !! id =
      Some (status_doc (uid user) id "summarizing" 50
              (Some "Generating summary...") t_status) ∧
    (∀ id', id' ≠ id → processing_status w' !! id' = processing_status w1 !! id') ∧
    summaries w' = summaries w1 ∧ users_profile w' = users_profile w1.
Proof.
  intros H. unfold upload_text in H. rewrite bind_eq in H.
  destruct (ensure_user_profile env (uid user) (user_email user) w)
    as [[[]|e] w1] eqn:He; [|done].
  unfold insert_files, insert_documents_metadata in H.
  do 3 (next_call env H; [done|]).
  exists w1. do 2 eexists. split; [done|].
  injection H as <- <-; run_cbn.
  (split; [reflexivity|]); (split; [reflexivity|]); (split; [reflexivity|]);
    (split; [by rewrite lookup_insert_eq|]);
    (split; [by intros id' Hne; rewrite !lookup_insert_ne|done]).
Qed.
End Accepted.

(** ** Strings of the upload handlers *)

Lemma str_len_take_str n s :
  str_len (take_str n s) = Nat.min n (str_len s).
Proof.
  revert n. induction s as [|c s IH]; intros n; simpl.
  - by destruct n.
  - destruct (is_continuation c) eqn:Hc; simpl.
    + by rewrite Hc, IH.
    + destruct n as [|n]; simpl; [done|]. by rewrite Hc, IH.
Qed.

Lemma take_str_prefix n s : ∃ rest, s = take_str n s +:+ rest.
Proof.
  revert n. induction s as [|c s IH]; intros n; simpl.
  - by exists "".
  - destruct (is_continuation c).
    + destruct (IH n) as [rest Hrest]. exists rest.
      exact (f_equal (String c) Hrest).
    + destruct n as [|n]; [by exists (String c s)|].
      destruct (IH n) as [rest Hrest]. exists rest.
      exact (f_equal (String c) Hrest).
Qed.

(** What [take_str] leaves out starts at a code point: it cuts no code
    point in two. *)
Lemma take_str_whole n s :
  ∃ rest, s = take_str n s +:+ rest ∧
          match rest with
          | String c _ => is_continuation c = false
          | EmptyString => True
          end.
Proof.
  revert n. induction s as [|c s IH]; intros n; simpl.
  - by exists "".
  - destruct (is_continuation c) eqn:Hc.
    + destruct (IH n) as (rest & Hrest & Hhead). exists rest.
      split; [exact (f_equal (String c) Hrest)|done].
    + destruct n as [|n]; [by exists (String c s)|].
      destruct (IH n) as (rest & Hrest & Hhead). exists rest.
      split; [exact (f_equal (String c) Hrest)|done].
Qed.

Lemma str_len_rev_app s acc :
  str_len (String.rev_app s acc) = (str_len s + str_len acc)%nat.
Proof.
  revert acc. induction s as [|c s IH]; intros acc; simpl; [done|].
  rewrite IH. simpl. destruct (is_continuation c); lia.
Qed.

Lemma str_len_tail c s : (str_len s ≤ str_len (String c s))%nat.
Proof. simpl. destruct (is_continuation c); lia. Qed.

Lemma str_len_drop_spaces width skip s :
  (str_len (drop_spaces width skip s) ≤ str_len s)%nat.
Proof.
  revert skip. induction s as [|c s IH]; intros skip; [done|].
  pose proof (str_len_tail c s) as Ht.
  cbn [drop_spaces]. destruct skip as [|k].
  - destruct (width (String c s)) as [|k]; [done|].
    specialize (IH k). lia.
  - specialize (IH k). lia.
Qed.

Lemma str_len_strip s : (str_len (strip s) ≤ str_len s)%nat.
Proof.
  unfold strip, String.rev, lstrip. rewrite str_len_rev_app. simpl.
  pose proof (str_len_drop_spaces space_width_rev 0
                (String.rev_app (drop_spaces space_width 0 s) "")) as H1.
  rewrite str_len_rev_app in H1. simpl in H1.
  pose proof (str_len_drop_spaces space_width 0 s). lia.
Qed.

Lemma str_len_replace_char a b s :
  is_continuation a = false → is_continuation b = false →
  str_len (replace_char a b s) = str_len s.
Proof.
  intros Ha Hb. induction s as [|c s IH]; simpl; [done|].
  destruct (Ascii.eqb c a) eqn:Hc.
  - apply Ascii.eqb_eq in Hc. subst c. by rewrite Ha, Hb, IH.
  - by rewrite IH.
Qed.

Lemma replace_char_gone a b s : a ≠ b → a ∉ chars (replace_char a b s).
Proof.
  intros Hab. induction s as [|c s IH]; simpl; [by intros ?%elem_of_nil|].
  intros [Heq|Hin]%elem_of_cons; [|done].
  destruct (Ascii.eqb c a) eqn:Hc; [done|].
  apply Ascii.eqb_neq in Hc. congruence.
Qed.

(** The preview inside a derived title: the first 50 code points of the
    text, stripped, with line feeds turned into spaces. *)
Lemma derived_title_shape text :
  ∃ preview,
    derived_title text = "Text Note: " +:+ preview +:+ "..." ∧
    preview = replace_char "010"%char " "%char (strip (take_str 50 text)) ∧
    (str_len preview ≤ 50)%nat ∧
    "010"%char ∉ chars preview.
Proof.
  eexists. split; [reflexivity|]. split; [reflexivity|]. split.
  - rewrite str_len_replace_char by reflexivity.
    pose proof (str_len_strip (take_str 50 text)) as H.
    rewrite str_len_take_str in H. lia.
  - by apply replace_char_gone.
Qed.

(** Slices count code points, and [strip] drops the no-break space. *)
Example take_str_code_points :
  take_str 2 (e_acute +:+ "t" +:+ e_acute) = e_acute +:+ "t" ∧
  str_len (e_acute +:+ "t" +:+ e_acute) = 3%nat ∧
  strip (text cafe_note) = "caf" +:+ e_acute ∧
  derived_title (text cafe_note) = "Text Note: caf" +:+ e_acute +:+ "...".
Proof. vm_compute. done. Qed.

Lemma ensure_user_profile_frame_eq env firebase_uid email w r w1 :
  ensure_user_profile env firebase_uid email w = (r, w1) → profile_frame w w1.
Proof.
  intros H. pose proof (ensure_user_profile_frame env firebase_uid email w) as [Hfr _].
  by rewrite H in Hfr.
Qed.

Lemma supported_category c file_type :
  SUPPORTED_TYPES !! c = Some file_type → file_type ∈ categories.
Proof.
  revert c file_type.
  change (map_Forall (λ _ ft, ft ∈ categories) SUPPORTED_TYPES).
  refine (bool_decide_unpack _ _). by vm_compute.
Qed.

(** X1.  An accepted file upload has a content type of the whitelist and
    a file name; the response's category is the one the whitelist gives
    (one of six), its name is the uploaded name, and its status is
    ["processing"]; the bucket gained exactly the uploaded bytes, with
    the request's content type, under the returned path; and [files]
    gained one row that repeats the response. *)
Theorem upload_file_stores_what_it_returns env file background_tasks user w r w' :
  upload_file env file background_tasks user w = (Ok r, w') →
  ∃ c name t,
    content_type file = Some c ∧ filename file = Some name ∧
    SUPPORTED_TYPES !! c = Some (FileUploadResponse.file_type r) ∧
    FileUploadResponse.file_type r ∈ categories ∧
    FileUploadResponse.file_name r = name ∧
    FileUploadResponse.status r = "processing" ∧
    bucket w' =
      <[FileUploadResponse.storage_path r := (content file, c)]> (bucket w) ∧
    files w' = files w ++
      [ {| Files.file_id := FileUploadResponse.file_id r;
           Files.firebase_uid := uid user;
           Files.file_name := FileUploadResponse.file_name r;
           Files.file_type := FileUploadResponse.file_type r;
           Files.storage_path := FileUploadResponse.storage_path r;
           Files.upload_time := t |} ].
Proof.
  intros H. apply upload_file_accepted_effects in H
    as (w1 & c & name & ft & t & ts & He & Hc & Hn & Hs & -> & Hf & Hb & _).
  apply ensure_user_profile_frame_eq in He as (Hfiles & _ & _ & _ & Hbucket & _).
  exists c, name, t. simpl. rewrite Hf, Hb, Hfiles, Hbucket.
  repeat split; try done. by apply (supported_category c).
Qed.

Lemma upload_file_stores_what_it_returns_witness :
  ∃ r c name t,
    (upload_file quiet notes_pdf true alice empty_world).1 = Ok r ∧
    content_type notes_pdf = Some c ∧ filename notes_pdf = Some name ∧
    SUPPORTED_TYPES !! c = Some (FileUploadResponse.file_type r) ∧
    FileUploadResponse.file_type r ∈ categories ∧
    FileUploadResponse.file_name r = name ∧
    FileUploadResponse.status r = "processing" ∧
    bucket (upload_file quiet notes_pdf true alice empty_world).2 =
      <[FileUploadResponse.storage_path r := (content notes_pdf, c)]>
        (bucket empty_world) ∧
    files (upload_file quiet notes_pdf true alice empty_world).2 =
    files empty_world ++
      [ {| Files.file_id := FileUploadResponse.file_id r;
           Files.firebase_uid := uid alice;
           Files.file_name := FileUploadResponse.file_name r;
           Files.file_type := FileUploadResponse.file_type r;
           Files.storage_path := FileUploadResponse.storage_path r;
           Files.upload_time := t |} ].
Proof.
  destruct (upload_file quiet notes_pdf true alice empty_world)
    as [[r|e] w'] eqn:H; [|vm_compute in H; discriminate].
  destruct (upload_file_stores_what_it_returns quiet notes_pdf true alice
              empty_world r w' H) as (c & name & t & Hrest).
  by exists r, c, name, t.
Defined.

(** X2.  An accepted URL submission is tagged ["url"] and its locator is
    the URL itself; its name is the title when a non-empty one is given,
    and otherwise the first 100 code points of the URL (all of it when
    it is shorter); nothing is written to the bucket, and [files] gained one
    row that repeats the response. *)
Theorem upload_url_records_the_url env request user w r w' :
  upload_url env request user w = (Ok r, w') →
  FileUploadResponse.file_type r = "url" ∧
  FileUploadResponse.storage_path r = url request ∧
  FileUploadResponse.status r = "processing" ∧
  (∀ title, url_title request = Some title → title ≠ "" →
            FileUploadResponse.file_name r = title) ∧
  (url_title request = None ∨ url_title request = Some "" →
   FileUploadResponse.file_name r = take_str 100 (url request) ∧
   (∃ rest, url request = FileUploadResponse.file_name r +:+ rest) ∧
   str_len (FileUploadResponse.file_name r) =
   Nat.min 100 (str_len (url request))) ∧
  bucket w' = bucket w ∧
  ∃ t, files w' = files w ++
    [ {| Files.file_id := FileUploadResponse.file_id r;
         Files.firebase_uid := uid user;
         Files.file_name := FileUploadResponse.file_name r;
         Files.file_type := "url";
         Files.storage_path := url request;
         Files.upload_time := t |} ].
Proof.
  intros H. apply upload_url_accepted_effects in H
    as (w1 & t & ts & He & -> & Hf & Hb & _).
  apply ensure_user_profile_frame_eq in He as (Hfiles & _ & _ & _ & Hbucket & _).
  simpl. rewrite Hf, Hb, Hfiles, Hbucket. do 3 (split; [done|]).
  split; [|split; [|split; [done|by exists t]]].
  - intros title -> Hne. simpl. apply String.eqb_neq in Hne. by rewrite Hne.
  - intros [-> | ->]; simpl;
      (split; [done|split; [apply take_str_prefix|apply str_len_take_str]]).
Qed.

Lemma upload_url_records_the_url_witness :
  ∃ r, (upload_url quiet cells_page alice empty_world).1 = Ok r ∧
       FileUploadResponse.file_type r = "url" ∧
       FileUploadResponse.storage_path r = url cells_page.
Proof.
  destruct (upload_url quiet cells_page alice empty_world)
    as [[r|e] w'] eqn:H; [|vm_compute in H; discriminate].
  destruct (upload_url_records_the_url quiet cells_page alice empty_world r w' H)
    as (Ht & Hp & _).
  by exists r.
Defined.

(** X3.  An accepted text submission is tagged ["url"] and its locator
    is ["text://"] followed by its identifier; its name is the title when
    a non-empty one is given, and otherwise ["Text Note: "], a preview
    and ["..."], where the preview is the first 50 code points of the
    text, stripped of white space at both ends, with every line feed
    turned into a space: it has at most 50 code points and no line
    feed; nothing is written to the bucket, and [files] gained one row
    that repeats the response. *)
Theorem upload_text_titles_the_note env request user w r w' :
  upload_text env request user w = (Ok r, w') →
  FileUploadResponse.file_type r = "url" ∧
  FileUploadResponse.storage_path r =
    "text://" +:+ FileUploadResponse.file_id r ∧
  (∀ title, text_title request = Some title → title ≠ "" →
            FileUploadResponse.file_name r = title) ∧
  (text_title request = None ∨ text_title request = Some "" →
   ∃ preview,
     FileUploadResponse.file_name r = "Text Note: " +:+ preview +:+ "..." ∧
     preview =
       replace_char "010"%char " "%char (strip (take_str 50 (text request))) ∧
     (str_len preview ≤ 50)%nat ∧ "010"%char ∉ chars preview) ∧
  bucket w' = bucket w ∧
  ∃ t, files w' = files w ++
    [ {| Files.file_id := FileUploadResponse.file_id r;
         Files.firebase_uid := uid user;
         Files.file_name := FileUploadResponse.file_name r;
         Files.file_type := "url";
         Files.storage_path := FileUploadResponse.storage_path r;
         Files.upload_time := t |} ].
Proof.
  intros H. apply upload_text_accepted_effects in H
    as (w1 & t & ts & He & -> & Hf & Hb & _).
  apply ensure_user_profile_frame_eq in He as (Hfiles & _ & _ & _ & Hbucket & _).
  simpl. rewrite Hf, Hb, Hfiles, Hbucket. do 2 (split; [done|]).
  split; [|split; [|split; [done|by exists t]]].
  - intros title -> Hne. simpl. apply String.eqb_neq in Hne. by rewrite Hne.
  - intros [-> | ->]; simpl; apply derived_title_shape.
Qed.

(** The note with the no-break spaces and an empty title. *)
Lemma upload_text_titles_the_note_witness :
  ∃ r, (upload_text quiet cafe_note alice empty_world).1 = Ok r ∧
       FileUploadResponse.storage_path r =
       "text://" +:+ FileUploadResponse.file_id r ∧
       ∃ preview,
         FileUploadResponse.file_name r = "Text Note: " +:+ preview +:+ "..." ∧
         preview =
           replace_char "010"%char " "%char (strip (take_str 50 (text cafe_note))) ∧
         (str_len preview ≤ 50)%nat ∧ "010"%char ∉ chars preview.
Proof.
  destruct (upload_text quiet cafe_note alice empty_world)
    as [[r|e] w'] eqn:H; [|vm_compute in H; discriminate].
  destruct (upload_text_titles_the_note quiet cafe_note alice empty_world r w' H)
    as (_ & Hp & _ & Hname & _).
  exists r. split; [reflexivity|]. split; [exact Hp|].
  apply Hname. by right.
Defined.

Lemma intake_first_status env s user w r w' :
  intake env s user w = (Ok r, w') →
  ∃ t, processing_status w' !! FileUploadResponse.file_id r =
       Some (status_doc (uid user) (FileUploadResponse.file_id r)
               (first_status s).1.1 (first_status s).1.2
               (Some (first_status s).2) t).
Proof.
  intros H. destruct s as [file bt|request|request]; simpl in H.
  - apply upload_file_accepted_effects in H
      as (w1 & c & name & ft & t & ts & _ & _ & _ & _ & -> & _ & _ & Hd & _).
    by exists ts.
  - apply upload_url_accepted_effects in H
      as (w1 & t & ts & _ & -> & _ & _ & Hd & _). by exists ts.
  - apply upload_text_accepted_effects in H
      as (w1 & t & ts & _ & -> & _ & _ & Hd & _). by exists ts.
Qed.

Lemma get_status_not_owner env file_id user w data :
  fault env (tick w) = None →
  processing_status w !! file_id = Some data →
  data !! "firebase_uid" ≠ Some (VStr (uid user)) →
  (get_status env file_id user w).1 = Raise (HTTPException 403 "Access denied").
Proof.
  intros H Hdoc Hown. unfold get_status, firestore_get.
  rewrite bind_eq, (external_ok env _ w H). simpl. rewrite Hdoc.
  destruct (data !! "firebase_uid") as [[]|]; simpl; try done.
  destruct (String.eqb s (uid user)) eqn:Hs; [|done].
  apply String.eqb_eq in Hs. by subst.
Qed.

Lemma get_status_of_status_doc env file_id user w status progress message t :
  fault env (tick w) = None →
  processing_status w !! file_id =
    Some (status_doc (uid user) file_id status progress message t) →
  (get_status env file_id user w).1 =
  Ok {| ProcessingStatus.file_id := file_id; ProcessingStatus.status := status;
        ProcessingStatus.progress := progress;
        ProcessingStatus.message := message |}.
Proof.
  intros H Hdoc.
  destruct (status_doc_fields (uid user) file_id status progress message t)
    as (Hu & Hs & Hp & Hm & _).
  rewrite (get_status_present env file_id user w _ H Hdoc Hu), Hs, Hp, Hm.
  by destruct message.
Qed.

(** X4.  Right after an accepted intake, and before its background task
    runs, [get_status] answers the submitter with the stage the handler
    wrote last ([uploaded(25)] for a file, [extracting(30)] for a URL,
    [summarizing(50)] for a text) and its message; any other user gets
    403. *)
Theorem status_after_intake env s user other w r w' :
  intake env s user w = (Ok r, w') →
  fault env (tick w') = None →
  (get_status env (FileUploadResponse.file_id r) user w').1 =
  Ok {| ProcessingStatus.file_id := FileUploadResponse.file_id r;
        ProcessingStatus.status := (first_status s).1.1;
        ProcessingStatus.progress := (first_status s).1.2;
        ProcessingStatus.message := Some (first_status s).2 |} ∧
  (uid other ≠ uid user →
   (get_status env (FileUploadResponse.file_id r) other w').1 =
   Raise (HTTPException 403 "Access denied")).
Proof.
  intros H Hf. apply intake_first_status in H as [t Hd]. split.
  - by apply (get_status_of_status_doc env _ user w' _ _ _ t).
  - intros Hne. apply (get_status_not_owner env _ other w' _ Hf Hd).
    destruct (status_doc_fields (uid user) (FileUploadResponse.file_id r)
                (first_status s).1.1 (first_status s).1.2
                (Some (first_status s).2) t) as (-> & _).
    congruence.
Qed.

Lemma status_after_intake_witness :
  ∃ r, (intake quiet (SubmitText cell_note) alice empty_world).1 = Ok r ∧
       (get_status quiet (FileUploadResponse.file_id r) alice
          (intake quiet (SubmitText cell_note) alice empty_world).2).1 =
       Ok {| ProcessingStatus.file_id := FileUploadResponse.file_id r;
             ProcessingStatus.status := "summarizing";
             ProcessingStatus.progress := 50;
             ProcessingStatus.message := Some "Generating summary..." |}.
Proof.
  destruct (intake quiet (SubmitText cell_note) alice empty_world)
    as [[r|e] w'] eqn:H; [|vm_compute in H; discriminate].
  exists r. split; [reflexivity|].
  refine (proj1 (status_after_intake quiet (SubmitText cell_note) alice bob
                   empty_world r w' H _)).
  reflexivity.
Defined.

(** ** Every outcome of an intake *)

Section Outcomes.
Variable env : Env.

Ltac frame_of He :=
  apply ensure_user_profile_frame_eq in He
    as (?Hfiles & ?Hdocs & ?Hsums & ?Hps & ?Hbucket & ?Hhist & ?Hbg).

Ltac outcome H :=
  injection H as <- <-; run_cbn; repeat split; try done; try congruence;
  try (intros; congruence).

Lemma ensure_user_profile_raises firebase_uid email w e w1 :
  ensure_user_profile env firebase_uid email w = (Raise e, w1) →
  ∃ msg n, fault env n = Some msg ∧ e = Exception msg.
Proof.
  intros H. unfold ensure_user_profile, select_users_profile,
    insert_users_profile, update_users_profile_email in H.
  next_call env H; [injection H as <- <-; eauto|].
  destruct (filter _ (users_profile w)) as [|first rest].
  - next_call env H; [injection H as <- <-; eauto|done].
  - destruct (truthy email && negb (truthy (UsersProfile.email first)));
      [|done].
    next_call env H; [injection H as <- <-; eauto|done].
Qed.

Lemma upload_url_outcomes request user w r w' :
  upload_url env request user w = (r, w') →
  bucket w' = bucket w ∧ summaries w' = summaries w ∧
  match r with
  | Ok _ => True
  | Raise _ =>
      status_history w' = status_history w ∧
      processing_status w' = processing_status w ∧
      background w' = background w
  end.
Proof.
  intros H. unfold upload_url in H. rewrite bind_eq in H.
  destruct (ensure_user_profile env (uid user) (user_email user) w)
    as [[[]|e] w1] eqn:He; frame_of He; [|outcome H].
  unfold insert_files, insert_documents_metadata in H.
  do 3 (next_call env H; [outcome H|]). outcome H.
Qed.

Lemma upload_text_outcomes request user w r w' :
  upload_text env request user w = (r, w') →
  bucket w' = bucket w ∧ summaries w' = summaries w ∧
  match r with
  | Ok _ => True
  | Raise _ =>
      status_history w' = status_history w ∧
      processing_status w' = processing_status w ∧
      background w' = background w
  end.
Proof.
  intros H. unfold upload_text in H. rewrite bind_eq in H.
  destruct (ensure_user_profile env (uid user) (user_email user) w)
    as [[[]|e] w1] eqn:He; frame_of He; [|outcome H].
  unfold insert_files, insert_documents_metadata in H.
  do 3 (next_call env H; [outcome H|]). outcome H.
Qed.

Lemma upload_file_outcomes file background_tasks user w r w' :
  upload_file env file background_tasks user w = (r, w') →
  summaries w' = summaries w ∧
  match r with
  | Ok _ => True
  | Raise e =>
      background w' = background w ∧
      ∀ detail, e = HTTPException 500 detail →
        ∃ id t, processing_status w' !! id =
                Some (status_doc (uid user) id "error" 0 (Some detail) t)
  end.
Proof.
  intros H. unfold upload_file in H. rewrite bind_eq in H.
  destruct (ensure_user_profile env (uid user) (user_email user) w)
    as [[[]|e] w1] eqn:He.
  2: { destruct (ensure_user_profile_raises _ _ _ _ _ He) as (msg & n & _ & ->).
       frame_of He. outcome H. }
  frame_of He.
  destruct (content_type file) as [c|] eqn:Hc; simpl in H; [|outcome H].
  destruct (SUPPORTED_TYPES !! c) as [file_type|] eqn:Hs; [|outcome H].
  expose H.
  destruct (filename file) as [name|] eqn:Hname; [|outcome H].
  unfold file_read, blob_upload, insert_files, insert_documents_metadata in H.
  next_call env H; [outcome H|].
  do 5 (next_call env H;
        [next_call env H;
         [outcome H
         |injection H as <- <-; run_cbn; repeat split; try done;
          intros detail [= <-]; do 2 eexists; apply lookup_insert_eq]|]).
  destruct background_tasks; expose H; outcome H.
Qed.
End Outcomes.

(** X5.  Whatever fails, an intake never writes to [summaries]; a URL
    or text intake never writes to the bucket; an intake that raises has
    queued no background task; and a URL or text intake that raises has
    written no status document. *)
Theorem intake_side_effects env s user w :
  summaries (intake env s user w).2 = summaries w ∧
  (kind_of s ≠ BinaryFile → bucket (intake env s user w).2 = bucket w) ∧
  (∀ e, (intake env s user w).1 = Raise e →
     background (intake env s user w).2 = background w ∧
     (kind_of s ≠ BinaryFile →
      processing_status (intake env s user w).2 = processing_status w ∧
      status_history (intake env s user w).2 = status_history w)).
Proof.
  destruct (intake env s user w) as [r w'] eqn:H.
  destruct s as [file bt|request|request]; simpl in *.
  - apply upload_file_outcomes in H as [Hs Hr].
    split; [done|]. split; [done|]. intros e ->. by destruct Hr.
  - apply upload_url_outcomes in H as (Hb & Hs & Hr).
    split; [done|]. split; [done|]. intros e ->. by destruct Hr as (? & ? & ?).
  - apply upload_text_outcomes in H as (Hb & Hs & Hr).
    split; [done|]. split; [done|]. intros e ->. by destruct Hr as (? & ? & ?).
Qed.

(** X6.  When [upload_file] answers 500, no background task was queued
    and the status store holds, for the submitter, an [error(0)] document
    whose message is the detail of the response. *)
Theorem upload_file_500_leaves_error_status env file background_tasks user w
  detail w' :
  upload_file env file background_tasks user w =
    (Raise (HTTPException 500 detail), w') →
  background w' = background w ∧
  ∃ id d, processing_status w' !! id = Some d ∧
          d !! "firebase_uid" = Some (VStr (uid user)) ∧
          observe d = Some ("error", 0, Some detail).
Proof.
  intros H. apply upload_file_outcomes in H as (_ & Hbg & Hd).
  split; [done|]. destruct (Hd detail eq_refl) as (id & t & Hdoc).
  exists id. eexists. split; [exact Hdoc|]. split.
  - by destruct (status_doc_fields (uid user) id "error" 0 (Some detail) t).
  - apply observe_status_doc.
Qed.

Lemma upload_file_500_leaves_error_status_witness :
  background
    (upload_file (failing_at 6 "db down") notes_pdf true alice empty_world).2 =
  background empty_world ∧
  ∃ id d,
    processing_status
      (upload_file (failing_at 6 "db down") notes_pdf true alice empty_world).2
      !! id = Some d ∧
    d !! "firebase_uid" = Some (VStr (uid alice)) ∧
    observe d = Some ("error", 0, Some "db down").
Proof.
  apply (upload_file_500_leaves_error_status (failing_at 6 "db down") notes_pdf
           true alice empty_world "db down").
  vm_compute. reflexivity.
Defined.

Lemma upload_url_no_rollback env request user w w1 msg :
  ensure_user_profile env (uid user) (user_email user) w = (Ok (), w1) →
  fault env (S (tick w1)) = None →
  fault env (S (S (tick w1))) = Some msg →
  ∃ w' f,
    upload_url env request user w = (Raise (Exception msg), w') ∧
    files w' = files w ++ [f] ∧
    Files.file_id f = uuid_str (uuid4 env (tick w1)) ∧
    documents_metadata w' = documents_metadata w.
Proof.
  intros He H1 H2.
  destruct (upload_url env request user w) as [r w'] eqn:H.
  unfold upload_url in H. rewrite bind_eq, He in H.
  apply ensure_user_profile_frame_eq in He as (Hfiles & Hdocs & _).
  unfold insert_files, insert_documents_metadata in H.
  next_call env H; [congruence|]. next_call env H; [|congruence].
  injection H as <- <-. rewrite E0 in H2. injection H2 as ->.
  do 2 eexists. split; [reflexivity|]. run_cbn. by rewrite Hfiles, Hdocs.
Qed.

Lemma upload_text_no_rollback env request user w w1 msg :
  ensure_user_profile env (uid user) (user_email user) w = (Ok (), w1) →
  fault env (S (tick w1)) = None →
  fault env (S (S (tick w1))) = Some msg →
  ∃ w' f,
    upload_text env request user w = (Raise (Exception msg), w') ∧
    files w' = files w ++ [f] ∧
    Files.file_id f = uuid_str (uuid4 env (tick w1)) ∧
    documents_metadata w' = documents_metadata w.
Proof.
  intros He H1 H2.
  destruct (upload_text env request user w) as [r w'] eqn:H.
  unfold upload_text in H. rewrite bind_eq, He in H.
  apply ensure_user_profile_frame_eq in He as (Hfiles & Hdocs & _).
  unfold insert_files, insert_documents_metadata in H.
  next_call env H; [congruence|]. next_call env H; [|congruence].
  injection H as <- <-. rewrite E0 in H2. injection H2 as ->.
  do 2 eexists. split; [reflexivity|]. run_cbn. by rewrite Hfiles, Hdocs.
Qed.

(** X7.  A URL or text intake does not roll back: when the profile
    upsert and the insert into [files] went through and the insert into
    [documents_metadata] fails, the request raises that failure, the new
    row stays in [files] and [documents_metadata] is as before; if the
    identifier was new to [documents_metadata], the two tables no longer
    agree. *)
Theorem intake_does_not_roll_back env s user w w1 msg :
  kind_of s ≠ BinaryFile →
  ensure_user_profile env (uid user) (user_email user) w = (Ok (), w1) →
  fault env (S (tick w1)) = None →
  fault env (S (S (tick w1))) = Some msg →
  (∀ d, d ∈ documents_metadata w →
        DocumentsMetadata.id d ≠ uuid_str (uuid4 env (tick w1))) →
  (intake env s user w).1 = Raise (Exception msg) ∧
  (∃ f, files (intake env s user w).2 = files w ++ [f] ∧
        Files.file_id f = uuid_str (uuid4 env (tick w1))) ∧
  documents_metadata (intake env s user w).2 = documents_metadata w ∧
  ¬ tables_agree (intake env s user w).2.
Proof.
  intros Hk He H1 H2 Hfresh.
  assert (∃ w' f, intake env s user w = (Raise (Exception msg), w') ∧
            files w' = files w ++ [f] ∧
            Files.file_id f = uuid_str (uuid4 env (tick w1)) ∧
            documents_metadata w' = documents_metadata w)
    as (w' & f & -> & Hf & Hid & Hd).
  { destruct s as [file bt|request|request]; simpl; [done| |].
    - by apply upload_url_no_rollback.
    - by apply upload_text_no_rollback. }
  simpl. split; [done|]. split; [by exists f|]. split; [done|].
  intros Hagree.
  destruct (Hagree (Files.file_id f) (Files.firebase_uid f)) as [Hin _].
  rewrite Hd in Hin. apply (Hfresh _ (Hin ltac:(exists f; rewrite Hf;
    split; [apply elem_of_app; right; by apply list_elem_of_singleton|done]))).
  by rewrite Hid.
Qed.

Lemma intake_does_not_roll_back_witness :
  (intake (failing_at 4 "db down") (SubmitText cell_note) alice empty_world).1 =
  Raise (Exception "db down") ∧
  ¬ tables_agree
      (intake (failing_at 4 "db down") (SubmitText cell_note) alice
         empty_world).2.
Proof.
  destruct (intake_does_not_roll_back (failing_at 4 "db down")
              (SubmitText cell_note) alice empty_world
              (ensure_user_profile (failing_at 4 "db down") (uid alice)
                 (user_email alice) empty_world).2 "db down")
    as (Hr & _ & _ & Hagree).
  - discriminate.
  - reflexivity.
  - reflexivity.
  - reflexivity.
  - intros d Hd. by apply elem_of_nil in Hd.
  - by split.
Defined.

(** X8.  A status written for a submission is read back as written:
    after [update_processing_status], [get_status] answers the owner with
    exactly the status, progress and message of that write, whatever the
    document held before; another user gets 403; and the documents of
    other identifiers are untouched. *)
Theorem status_read_back env file_id user other status progress message w :
  fault env (tick w) = None → fault env (S (tick w)) = None →
  let w' := (update_processing_status env (uid user) file_id status progress
               message w).2 in
  (get_status env file_id user w').1 =
  Ok {| ProcessingStatus.file_id := file_id; ProcessingStatus.status := status;
        ProcessingStatus.progress := progress;
        ProcessingStatus.message := message |} ∧
  (uid other ≠ uid user →
   (get_status env file_id other w').1 =
   Raise (HTTPException 403 "Access denied")) ∧
  (∀ id', id' ≠ file_id →
          processing_status w' !! id' = processing_status w !! id').
Proof.
  intros H0 H1 w'. subst w'.
  rewrite (update_processing_status_ok env _ _ _ _ _ w H0). simpl.
  split; [|split].
  - eapply get_status_of_status_doc; [done|]. simpl. apply lookup_insert_eq.
  - intros Hne. eapply get_status_not_owner; [done| |].
    + simpl. apply lookup_insert_eq.
    + destruct (status_doc_fields (uid user) file_id status progress message
                  (utc env (tick w))) as (-> & _). congruence.
  - intros id' Hne. by rewrite lookup_insert_ne.
Qed.

Lemma status_read_back_witness :
  (get_status quiet "f1" alice
     (update_processing_status quiet (uid alice) "f1" "extracting" 40 None
        written_twice).2).1 =
  Ok {| ProcessingStatus.file_id := "f1"; ProcessingStatus.status := "extracting";
        ProcessingStatus.progress := 40; ProcessingStatus.message := None |}.
Proof.
  refine (proj1 (status_read_back quiet "f1" alice bob "extracting" 40 None
                   written_twice _ _)); reflexivity.
Defined.

(** X9.  [get_status] answers 403 for every stored document whose
    [firebase_uid] field is not the caller's identity; in particular a
    document without that field can be read by nobody. *)
Theorem get_status_hides_foreign_documents env file_id user w data :
  fault env (tick w) = None →
  processing_status w !! file_id = Some data →
  (data !! "firebase_uid" ≠ Some (VStr (uid user)) →
   (get_status env file_id user w).1 =
   Raise (HTTPException 403 "Access denied")) ∧
  (data !! "firebase_uid" = None →
   ∀ anyone, (get_status env file_id anyone w).1 =
             Raise (HTTPException 403 "Access denied")).
Proof.
  intros H Hdoc. split.
  - by apply get_status_not_owner.
  - intros Hnone anyone. apply (get_status_not_owner env _ anyone w data H Hdoc).
    by rewrite Hnone.
Qed.

Lemma get_status_hides_foreign_documents_witness :
  (get_status quiet "f1" bob bare_status).1 =
  Raise (HTTPException 403 "Access denied").
Proof.
  refine (proj1 (get_status_hides_foreign_documents quiet "f1" bob bare_status
                   bare_doc _ _) _).
  - reflexivity.
  - reflexivity.
  - vm_compute. discriminate.
Defined.

(** ** The read routes only read *)

Lemma wait_S n w : wait (S n) w = advance (wait n w).
Proof. reflexivity. Qed.

Lemma wait_advance n w : wait n (advance w) = advance (wait n w).
Proof.
  induction n as [|n IH]; [done|]. by rewrite !wait_S, IH.
Qed.

Lemma wait_stores n w :
  same_stores (wait n w) w ∧ status_history (wait n w) = status_history w ∧
  background (wait n w) = background w ∧ tick (wait n w) = (n + tick w)%nat.
Proof.
  induction n as [|n (Hs & Hh & Hb & Ht)]; [done|].
  rewrite wait_S. unfold same_stores in *. simpl.
  destruct Hs as (?&?&?&?&?&?). repeat split; try done. by rewrite Ht.
Qed.

(** A query: an external call that returns what it reads. *)
Lemma external_query env {A} (g : World → A) w :
  (external env (λ _ w0, (g w0, w0)) w).2 = advance w.
Proof. unfold external. by destruct (fault env (tick w)). Qed.

Lemma for_each_queries env (l : list Files.row) w :
  ∃ n, (n ≤ length l)%nat ∧
    (for_each
       (λ file, bind (select_latest_summary env (Files.file_id file))
                  (λ summary_result, ret (material_of file summary_result)))
       l w).2 = wait n w.
Proof.
  revert w. induction l as [|x l IH]; intros w; simpl.
  - exists 0%nat. by split.
  - unfold select_latest_summary in *. rewrite !bind_eq.
    pose proof (external_query env
                  (λ w0, latest_summaries (Files.file_id x) (summaries w0)) w) as Hq.
    destruct (external env _ w) as [[a|e] w0]; simpl in Hq; subst w0; simpl.
    + destruct (IH (advance w)) as (n & Hn & Hw).
      rewrite bind_eq.
      destruct (for_each _ l (advance w)) as [[ys|e] w2]; simpl in *;
        exists (S n); (split; [lia|]); by rewrite Hw, wait_advance.
    + exists 1%nat. split; [lia|done].
Qed.

(** X10.  The read routes only read: whatever fails, [get_status] makes
    one external call, [get_summary] one or two, and [get_materials] at
    most one more than the caller has rows in [files]; and the world
    after each of them is the world before with only the event counter
    advanced. *)
Theorem read_routes_only_read env file_id user w :
  (get_status env file_id user w).2 = wait 1 w ∧
  (∃ n, (1 ≤ n ≤ 2)%nat ∧ (get_summary env file_id user w).2 = wait n w) ∧
  (∃ n, (1 ≤ n ≤ 1 + length (filter (λ r, Files.firebase_uid r = uid user)
                               (files w)))%nat ∧
        (get_materials env user w).2 = wait n w).
Proof.
  split; [|split].
  - unfold get_status, firestore_get. rewrite bind_eq.
    pose proof (external_query env (λ w0, processing_status w0 !! file_id) w) as Hq.
    destruct (external env _ w) as [[[data|]|e] w0]; simpl in Hq; subst w0;
      try done.
    destruct (differs_from _ _); [done|].
    unfold make_ProcessingStatus.
    by destruct (default (VStr "unknown") (data !! "status")),
      (as_int env (default (VInt 0) (data !! "progress"))),
      (data !! "message") as [[]|].
  - unfold get_summary, select_files_by_id. rewrite bind_eq.
    pose proof (external_query env
                  (λ w0, filter (λ r, Files.file_id r = file_id) (files w0)) w)
      as Hq.
    destruct (external env _ w) as [[[|first rest]|e] w0]; simpl in Hq; subst w0;
      try (exists 1%nat; split; [lia|done]).
    destruct (negb _); [exists 1%nat; split; [lia|done]|].
    unfold select_latest_summary. rewrite bind_eq.
    pose proof (external_query env
                  (λ w0, latest_summaries file_id (summaries w0)) (advance w))
      as Hq.
    destruct (external env _ (advance w)) as [[[|s l]|e] w0]; simpl in Hq;
      subst w0; exists 2%nat; (split; [lia|done]).
  - unfold get_materials, select_files_by_owner. rewrite bind_eq.
    pose proof (external_query env
                  (λ w0, merge_sort upload_time_desc
                           (filter (λ r, Files.firebase_uid r = uid user)
                              (files w0))) w) as Hq.
    destruct (external env _ w) as [[rows|e] w0] eqn:Hx; simpl in Hq; subst w0.
    + destruct (for_each_queries env rows (advance w)) as (n & Hn & Hw).
      exists (S n). rewrite Hw, wait_advance. split; [|done].
      assert (rows = merge_sort upload_time_desc
                (filter (λ r, Files.firebase_uid r = uid user) (files w)))
        as ->.
      { unfold external in Hx. destruct (fault env (tick w)); [done|].
        by injection Hx as <-. }
      rewrite (Permutation_length (merge_sort_Permutation _ _)) in Hn. lia.
    + exists 1%nat. split; [lia|done].
Qed.

(** ** Authentication *)

Lemma prefix_spec p s : String.prefix p s = true ↔ ∃ t, s = p +:+ t.
Proof.
  revert s. induction p as [|c p IH]; intros [|c' s]; simpl.
  - split; [by exists ""|done].
  - split; [by exists (String c' s)|done].
  - split; [done|by intros [t [=]]].
  - destruct (ascii_dec c c') as [->|Hne].
    + rewrite IH. split; intros [t Ht]; exists t.
      * exact (f_equal (String c') Ht).
      * by injection Ht.
    + split; [done|]. intros [t [= ? _]]. congruence.
Qed.

Lemma prefix_chars p s c : String.prefix p s = true → c ∈ chars p → c ∈ chars s.
Proof.
  intros [t ->]%prefix_spec Hc. rewrite chars_app. apply elem_of_app. by left.
Qed.

Lemma remove_go_no_space t :
  " "%char ∉ chars t → remove_go "Bearer " 0 t = t.
Proof.
  induction t as [|c t IH]; [done|]. intros Hno.
  cbn [remove_go].
  destruct (String.prefix "Bearer " (String c t)) eqn:Hp.
  - destruct Hno. apply (prefix_chars "Bearer " _ _ Hp). vm_compute.
    repeat (first [by left | right]).
  - rewrite IH; [done|]. intros Hin. apply Hno. simpl. by right.
Qed.

Lemma remove_all_bearer t :
  " "%char ∉ chars t → remove_all "Bearer " ("Bearer " +:+ t) = t.
Proof.
  intros Hno. unfold remove_all.
  change (remove_go "Bearer " 0 ("Bearer " +:+ t))
    with (if String.prefix "Bearer " ("Bearer " +:+ t)
          then remove_go "Bearer " 0 t
          else String "B" (remove_go "Bearer " 0 ("earer " +:+ t))).
  rewrite (proj2 (prefix_spec "Bearer " ("Bearer " +:+ t))) by by exists t.
  by apply remove_go_no_space.
Qed.

Lemma get_firebase_user_world verify authorization w :
  (get_firebase_user verify authorization w).2 = w.
Proof.
  unfold get_firebase_user. destruct (_ || _); [done|]. by destruct (verify _).
Qed.

(** X11.  [get_firebase_user] touches no store, and it answers 401
    "Missing or invalid authorization header" exactly when the header is
    absent or does not start with ["Bearer "]. *)
Theorem get_firebase_user_rejects_bad_headers verify authorization w :
  (get_firebase_user verify authorization w).2 = w ∧
  ((get_firebase_user verify authorization w).1 =
   Raise (HTTPException 401 "Missing or invalid authorization header") ↔
   ∀ t, authorization ≠ Some ("Bearer " +:+ t)).
Proof.
  unfold get_firebase_user.
  destruct authorization as [h|]; simpl.
  - destruct (String.prefix "Bearer " h) eqn:Hp.
    + apply prefix_spec in Hp as [t ->].
      replace (negb (negb (String.eqb ("Bearer " +:+ t) "")) || negb true)
        with false by done.
      destruct (verify _); simpl; (split; [done|]); split; try done;
        intros Hno; by destruct (Hno t).
    + rewrite orb_true_r. simpl. split; [done|]. split; [|done].
      intros _ t [= ->]. apply not_true_iff_false in Hp. apply Hp.
      apply prefix_spec. by exists t.
  - split; [done|]. by split.
Qed.

(** X12.  For a header ["Bearer "] followed by a token without spaces,
    the verifier is given exactly that token; the dependency returns the
    decoded user, or 401 with the verifier's message. *)
Theorem get_firebase_user_verifies_the_token verify t w :
  " "%char ∉ chars t →
  get_firebase_user verify (Some ("Bearer " +:+ t)) w =
  match verify t with
  | inl decoded_token => (Ok decoded_token, w)
  | inr msg => (Raise (HTTPException 401 ("Invalid token: " +:+ msg)), w)
  end.
Proof.
  intros Hno. unfold get_firebase_user.
  change (default "" (Some ("Bearer " +:+ t))) with ("Bearer " +:+ t).
  rewrite (proj2 (prefix_spec "Bearer " ("Bearer " +:+ t))) by by exists t.
  change (truthy (Some ("Bearer " +:+ t))) with true. cbn [negb orb].
  rewrite (remove_all_bearer t Hno). by destruct (verify t).
Qed.

Lemma get_firebase_user_verifies_the_token_witness :
  get_firebase_user sample_verifier (Some ("Bearer " +:+ "alice-token"))
    empty_world = (Ok alice, empty_world).
Proof.
  refine (get_firebase_user_verifies_the_token sample_verifier "alice-token"
            empty_world _).
  vm_compute. intros H. by repeat (apply elem_of_cons in H as [H|H]; [done|]);
    apply elem_of_nil in H.
Defined.

(** X13.  When the authentication dependency raises, every route
    answers with that exception, which is a 401, and leaves the world as
    it was: no handler runs, and not even a profile is created. *)
Theorem routes_do_nothing_without_a_user verify env authorization w e :
  (get_firebase_user verify authorization w).1 = Raise e →
  (∀ file background_tasks,
     api_upload verify env authorization file background_tasks w = (Raise e, w)) ∧
  (∀ request, api_upload_url verify env authorization request w = (Raise e, w)) ∧
  (∀ request, api_upload_text verify env authorization request w = (Raise e, w)) ∧
  (∀ file_id, api_status verify env authorization file_id w = (Raise e, w)) ∧
  api_materials verify env authorization w = (Raise e, w) ∧
  (∀ file_id, api_summary verify env authorization file_id w = (Raise e, w)) ∧
  ∃ detail, e = HTTPException 401 detail.
Proof.
  intros H.
  pose proof (get_firebase_user_world verify authorization w) as Hw.
  unfold api_upload, api_upload_url, api_upload_text, api_status, api_materials,
    api_summary, route.
  destruct (get_firebase_user verify authorization w) as [r w0] eqn:Hg.
  simpl in H, Hw. subst r w0. repeat split.
  unfold get_firebase_user in Hg.
  destruct (_ || _); [injection Hg as <-; eauto|].
  destruct (verify _); [done|injection Hg as <-; eauto].
Qed.

Lemma routes_do_nothing_without_a_user_witness :
  api_upload_url sample_verifier quiet (Some "Bearer stale-token") cells_page
    empty_world =
  (Raise (HTTPException 401 "Invalid token: Token expired"), empty_world).
Proof.
  refine (proj1 (proj2 (routes_do_nothing_without_a_user sample_verifier quiet
                          (Some "Bearer stale-token") empty_world _ _))
            cells_page).
  reflexivity.
Defined.

(** ** The extension of a stored file *)

Lemma string_app_assoc (a b c : string) : (a +:+ b) +:+ c = a +:+ (b +:+ c).
Proof. induction a as [|x a IH]; [done|]. exact (f_equal (String x) IH). Qed.

Lemma last_segment_go_no_dot_eq acc s :
  has_dot s = false → last_segment_go acc s = acc +:+ s.
Proof.
  revert acc. induction s as [|c s IH]; intros acc; simpl.
  - intros _. induction acc as [|x acc IHa]; [done|].
    exact (f_equal (String x) IHa).
  - intros [Hc Hs]%orb_false_iff. rewrite Hc, (IH _ Hs).
    by rewrite string_app_assoc.
Qed.

Lemma last_segment_go_after_dot acc stem ext :
  has_dot ext = false → last_segment_go acc (stem +:+ "." +:+ ext) = ext.
Proof.
  intros Hext. revert acc. induction stem as [|c stem IH]; intros acc.
  - change ("" +:+ "." +:+ ext) with (String "." ext). simpl.
    by rewrite (last_segment_go_no_dot_eq "" ext Hext).
  - change (String c stem +:+ "." +:+ ext)
      with (String c (stem +:+ "." +:+ ext)).
    simpl. by destruct (Ascii.eqb c "."); rewrite IH.
Qed.

Lemma file_ext_of_no_dot_name name file_type :
  has_dot name = false → file_ext_of name file_type = file_type.
Proof. intros H. unfold file_ext_of. by rewrite H. Qed.

Lemma file_ext_of_after_dot stem ext file_type :
  has_dot ext = false → file_ext_of (stem +:+ "." +:+ ext) file_type = ext.
Proof.
  intros H. unfold file_ext_of, last_segment.
  rewrite has_dot_app. change (has_dot ("." +:+ ext)) with true.
  rewrite orb_true_r. by apply last_segment_go_after_dot.
Qed.

(** X14.  The extension of the storage path comes from the uploaded
    file name, not from the validated content type: for a name without a
    dot it is the category, and for a name [stem.ext] it is the text
    after the last dot. *)
Theorem upload_file_path_extension env file background_tasks user w r w' :
  upload_file env file background_tasks user w = (Ok r, w') →
  (∀ name, filename file = Some name → has_dot name = false →
     FileUploadResponse.storage_path r =
     storage_path_of (uid user) (FileUploadResponse.file_id r)
       (FileUploadResponse.file_type r)) ∧
  (∀ stem ext, filename file = Some (stem +:+ "." +:+ ext) →
     has_dot ext = false →
     FileUploadResponse.storage_path r =
     storage_path_of (uid user) (FileUploadResponse.file_id r) ext).
Proof.
  intros H. apply upload_file_accepted_effects in H
    as (w1 & c & name & ft & t & ts & _ & _ & Hn & _ & -> & _).
  simpl. split.
  - intros name' Hn' Hdot. rewrite Hn in Hn'. injection Hn' as <-.
    by rewrite file_ext_of_no_dot_name.
  - intros stem ext Hn' Hdot. rewrite Hn in Hn'. injection Hn' as ->.
    by rewrite file_ext_of_after_dot.
Qed.

(** A file named [setup.exe] and declared as PDF is stored as [.exe]. *)
Lemma upload_file_path_extension_witness :
  ∃ r, (upload_file quiet setup_exe true alice empty_world).1 = Ok r ∧
       FileUploadResponse.file_type r = "pdf" ∧
       FileUploadResponse.storage_path r =
       storage_path_of (uid alice) (FileUploadResponse.file_id r) "exe".
Proof.
  destruct (upload_file quiet setup_exe true alice empty_world)
    as [[r|e] w'] eqn:H; [|vm_compute in H; discriminate].
  exists r. split; [reflexivity|]. split.
  - vm_compute in H. by injection H as <- _.
  - refine (proj2 (upload_file_path_extension quiet setup_exe true alice
                     empty_world r w' H) "setup" "exe" _ _); reflexivity.
Defined.

(** ** Profiles of other identities *)

Lemma ensure_user_profile_cases env firebase_uid email w :
  let t := users_profile w in
  let t' := users_profile (ensure_user_profile env firebase_uid email w).2 in
  t' = t ∨
  (filter (λ r, UsersProfile.firebase_uid r = firebase_uid) t = [] ∧
   t' = t ++ [new_profile firebase_uid email]) ∨
  (∃ first rest,
     filter (λ r, UsersProfile.firebase_uid r = firebase_uid) t = first :: rest ∧
     truthy (UsersProfile.email first) = false ∧
     t' = patch_email firebase_uid email <$> t).
Proof.
  intros t t'. subst t t'.
  destruct (ensure_user_profile env firebase_uid email w) as [r w'] eqn:H.
  unfold ensure_user_profile, select_users_profile, insert_users_profile,
    update_users_profile_email in H.
  next_call env H; [injection H as <- <-; by left|].
  destruct (filter _ (users_profile w)) as [|first rest] eqn:Hsel.
  - next_call env H; injection H as <- <-; [by left|right; by left].
  - destruct (truthy email) eqn:He; simpl in H;
      [|injection H as <- <-; by left].
    destruct (truthy (UsersProfile.email first)) eqn:Hf; simpl in H;
      [injection H as <- <-; by left|].
    next_call env H; injection H as <- <-; [by left|].
    right. right. by exists first, rest.
Qed.

Lemma patch_email_other firebase_uid email r :
  UsersProfile.firebase_uid r ≠ firebase_uid → patch_email firebase_uid email r = r.
Proof. intros H. unfold patch_email. by rewrite decide_False. Qed.

Lemma filter_others_patch firebase_uid email (t : list UsersProfile.row) :
  filter (λ r, UsersProfile.firebase_uid r ≠ firebase_uid)
    (patch_email firebase_uid email <$> t) =
  filter (λ r, UsersProfile.firebase_uid r ≠ firebase_uid) t.
Proof.
  induction t as [|r t IH]; [done|]. rewrite fmap_cons, !filter_cons.
  assert (UsersProfile.firebase_uid (patch_email firebase_uid email r) =
          UsersProfile.firebase_uid r) as Hu
    by (unfold patch_email; by case_decide).
  rewrite Hu, IH. case_decide; [|done]. by rewrite patch_email_other.
Qed.

(** X15.  Whatever fails, [ensure_user_profile] leaves the profiles of
    all other identities as they are, in place, and removes no row; and
    when the table has at most one profile per identity, a profile with a
    non-empty email is kept unchanged. *)
Theorem ensure_user_profile_spares_the_others env firebase_uid email w :
  let t := users_profile w in
  let t' := users_profile (ensure_user_profile env firebase_uid email w).2 in
  filter (λ r, UsersProfile.firebase_uid r ≠ firebase_uid) t' =
  filter (λ r, UsersProfile.firebase_uid r ≠ firebase_uid) t ∧
  (length t ≤ length t')%nat ∧
  (one_profile_each t →
   ∀ r, r ∈ t → truthy (UsersProfile.email r) = true → r ∈ t').
Proof.
  intros t t'.
  destruct (ensure_user_profile_cases env firebase_uid email w)
    as [H|[[Hnone H]|(first & rest & Hsel & Hf & H)]];
    fold t t' in H; rewrite H; clear H.
  - by repeat split.
  - split; [|split].
    + rewrite filter_app, filter_cons_False, filter_nil, app_nil_r; [done|].
      simpl. by intros Hne.
    + rewrite length_app. lia.
    + intros _ r Hin _. apply elem_of_app. by left.
  - split; [|split].
    + apply filter_others_patch.
    + by rewrite length_fmap.
    + intros Hone r Hin Hr. apply list_elem_of_fmap. exists r. split; [|done].
      symmetry. apply patch_email_other. intros Hu.
      assert (r ∈ filter (λ r, UsersProfile.firebase_uid r = firebase_uid) t)
        as Hrf by by apply list_elem_of_filter.
      specialize (Hone firebase_uid). fold t in Hsel. rewrite Hsel in Hone, Hrf.
      destruct rest; [|simpl in Hone; lia].
      apply list_elem_of_singleton in Hrf. subst r. congruence.
Qed.

(** ** The summary of a fresh submission *)

(** X16.  After an accepted intake whose identifier is new to [files]
    and to [summaries], [get_summary] answers the submitter 404 "Summary
    not found" and any other user 403. *)
Theorem summary_after_intake env s user other w r w' :
  intake env s user w = (Ok r, w') →
  (∀ f, f ∈ files w → Files.file_id f ≠ FileUploadResponse.file_id r) →
  (∀ x, x ∈ summaries w → Summaries.document_id x ≠ FileUploadResponse.file_id r) →
  fault env (tick w') = None → fault env (S (tick w')) = None →
  (get_summary env (FileUploadResponse.file_id r) user w').1 =
  Raise (HTTPException 404 "Summary not found") ∧
  (uid other ≠ uid user →
   (get_summary env (FileUploadResponse.file_id r) other w').1 =
   Raise (HTTPException 403 "Access denied")).
Proof.
  intros H Hfresh Hnone H0 H1.
  assert (summaries w' = summaries w ∧
          ∃ f, files w' = files w ++ [f] ∧
               Files.file_id f = FileUploadResponse.file_id r ∧
               Files.firebase_uid f = uid user) as (Hs & f & Hf & Hid & Hown).
  { destruct s as [file bt|request|request]; simpl in H.
    - apply upload_file_accepted_effects in H
        as (w1 & c & name & ft & t & ts & He & _ & _ & _ & -> & Hf & _ & _ & _ &
            Hs & _).
      apply ensure_user_profile_frame_eq in He as (Hfiles & _ & Hsums & _).
      split; [congruence|]. eexists. rewrite Hf, Hfiles. by split.
    - apply upload_url_accepted_effects in H
        as (w1 & t & ts & He & -> & Hf & _ & _ & _ & Hs & _).
      apply ensure_user_profile_frame_eq in He as (Hfiles & _ & Hsums & _).
      split; [congruence|]. eexists. rewrite Hf, Hfiles. by split.
    - apply upload_text_accepted_effects in H
        as (w1 & t & ts & He & -> & Hf & _ & _ & _ & Hs & _).
      apply ensure_user_profile_frame_eq in He as (Hfiles & _ & Hsums & _).
      split; [congruence|]. eexists. rewrite Hf, Hfiles. by split. }
  assert (filter (λ x, Files.file_id x = FileUploadResponse.file_id r) (files w')
          = [f]) as Hsel.
  { rewrite Hf, filter_app, filter_cons_True, filter_nil by done.
    replace (filter _ (files w)) with (@nil Files.row); [done|].
    symmetry. apply elem_of_nil_inv. intros x [Hx Hin]%list_elem_of_filter.
    by apply (Hfresh x). }
  split.
  - rewrite (get_summary_owner env _ user w' H0 f [] Hsel Hown H1).
    rewrite (proj2 (latest_summaries_nil _ (summaries w'))); [done|].
    rewrite Hs. exact Hnone.
  - intros Hne.
    rewrite (get_summary_not_owner env _ other w' H0 f [] Hsel); [done|].
    congruence.
Qed.

Lemma summary_after_intake_witness :
  ∃ r, (intake quiet (SubmitUrl cells_page) alice empty_world).1 = Ok r ∧
       (get_summary quiet (FileUploadResponse.file_id r) alice
          (intake quiet (SubmitUrl cells_page) alice empty_world).2).1 =
       Raise (HTTPException 404 "Summary not found").
Proof.
  destruct (intake quiet (SubmitUrl cells_page) alice empty_world)
    as [[r|e] w'] eqn:H; [|vm_compute in H; discriminate].
  exists r. split; [reflexivity|].
  refine (proj1 (summary_after_intake quiet (SubmitUrl cells_page) alice bob
                   empty_world r w' H _ _ _ _)).
  - intros f Hf. by apply elem_of_nil in Hf.
  - intros x Hx. by apply elem_of_nil in Hx.
  - reflexivity.
  - reflexivity.
Defined.
